(** * Multi-agent communication server: the request-file protocol

    A shallow embedding of [multi_agent_comm_server.py] and the properties
    of its request-file protocol.

    - JSON values are the values [json.load] builds: [None], [bool], [int],
      [float], [str], [list] and [dict] with string keys.  A [dict] is a
      finite map ([gmap]): Python compares dicts regardless of key order.
    - Python exceptions are explicit: a computation returns [Ok v] or
      [Raise e].
    - The file system is a tree of directories and regular files, threaded
      through the operations that touch it.  The text of a file is kept as
      what [json.load] makes of it. *)

From Stdlib Require Import ZArith String Ascii List.
From Stdlib Require Import Floats.SpecFloat.
From stdpp Require Import gmap strings list fin_maps.

Set Warnings "-register-all".

Local Open Scope string_scope.

(** ** JSON values *)

Inductive json : Type :=
| JNull
| JBool (b : bool)
| JInt (n : Z)
| JFloat (x : spec_float)
| JStr (s : string)
| JList (l : list json)
| JDict (d : gmap string json).

(** A request document is a JSON object. *)
Abbreviation document := (gmap string json).

(** [bool(v)]: Python truthiness, as tested by [if not data]. *)
Definition truthy (v : json) : bool :=
  match v with
  | JNull => false
  | JBool b => b
  | JInt n => negb (Z.eqb n 0)
  | JFloat (S754_zero _) => false
  | JFloat _ => true
  | JStr s => negb (bool_decide (s = ""))
  | JList l => negb (bool_decide (l = []))
  | JDict d => negb (bool_decide (d = ∅))
  end.

(** ** Exceptions *)

(** The [ToolError]s of the server, one constructor per message. *)
Inductive tool_error : Type :=
| CommDirUnavailable   (* "Could not create or access agent communication directory: ..." *)
| ScanFailed           (* "Failed to scan for requests: ..." *)
| RequestFileNotFound  (* "Request file not found: ..." *)
| ReadOrParseFailed    (* "Failed to read or parse request file ...: ..." *)
| QuestionIdNotFound   (* "Question ID '...' not found." *)
| WriteFailed.         (* "Failed to write updated file: ..." *)

Inductive exn : Type :=
| ToolError (e : tool_error)
| FileNotFoundError
| OSError
| JSONDecodeError
| UnicodeDecodeError
| TypeError
| AttributeError.

Inductive result (A : Type) : Type :=
| Ok (a : A)
| Raise (e : exn).

Arguments Ok {A} a.
Arguments Raise {A} e.

Definition bind {A B : Type} (r : result A) (k : A → result B) : result B :=
  match r with
  | Ok a => k a
  | Raise e => Raise e
  end.

Notation "x ← r ; k" := (bind r (λ x, k))
  (at level 20, r at level 100, k at level 200, only parsing, right associativity).

(** The error kinds of the protocol: [NotFoundError] stands for a missing
    request file or a missing question id. *)
Definition is_not_found (e : tool_error) : bool :=
  match e with
  | RequestFileNotFound | QuestionIdNotFound => true
  | _ => false
  end.

(** ** Python operations on JSON values *)

(** [data.get(key)]: only a dict has [get]. *)
Definition py_get (data : json) (key : string) : result json :=
  match data with
  | JDict d => Ok (default JNull (d !! key))
  | _ => Raise AttributeError
  end.

(** [data.get(key, dflt)] *)
Definition py_get_default (data : json) (key : string) (dflt : json) : result json :=
  match data with
  | JDict d => Ok (default dflt (d !! key))
  | _ => Raise AttributeError
  end.

(** [v == s] for a [str] [s]. *)
Definition py_eq_str (v : json) (s : string) : bool :=
  match v with
  | JStr s' => bool_decide (s' = s)
  | _ => false
  end.

(** [needle in hay] for two [str]s. *)
Fixpoint str_contains (needle hay : string) : bool :=
  String.prefix needle hay ||
  match hay with
  | EmptyString => false
  | String _ hay' => str_contains needle hay'
  end.

(** [key in data] *)
Definition py_contains (key : string) (data : json) : result bool :=
  match data with
  | JDict d => Ok (bool_decide (is_Some (d !! key)))
  | JList l => Ok (existsb (λ v, py_eq_str v key) l)
  | JStr s => Ok (str_contains key s)
  | _ => Raise TypeError
  end.

(** [data[key]] for a [str] key that [data] is known to hold. *)
Definition py_getitem (data : json) (key : string) : result json :=
  match data with
  | JDict d => Ok (default JNull (d !! key))
  | _ => Raise TypeError
  end.

(** [data[key] = v] *)
Definition py_setitem (data : json) (key : string) (v : json) : result json :=
  match data with
  | JDict d => Ok (JDict (<[key := v]> d))
  | _ => Raise TypeError
  end.

(** The dicts met by [for q in v ... if isinstance(q, dict)]: iterating a
    [str] yields [str]s and iterating a [dict] yields its keys, so neither
    contributes; [None], [bool] and numbers are not iterable. *)
Definition iter_dicts (v : json) : result (list document) :=
  match v with
  | JList l => Ok (omap (λ q, match q with JDict d => Some d | _ => None end) l)
  | JStr _ | JDict _ => Ok []
  | _ => Raise TypeError
  end.

(** ** The file system *)

(** A canonical absolute path, as [Path.resolve()] returns it: the names
    from the root down. *)
Abbreviation path := (list string).

(** What [open] followed by [json.load] makes of a file's bytes.  The
    [json] module is taken at its word: [json.dump] writes text on which
    [json.load] returns the value dumped, so a file written by
    [write_json_file] holds [Json data].  A text on which [json.load]
    raises anything but the two decoding errors (a [RecursionError] on
    very deep nesting, a [ValueError] on a huge number) has no case here:
    the statements below are about files of these three kinds. *)
Inductive contents : Type :=
| Undecodable        (* not UTF-8: UnicodeDecodeError *)
| NotJson            (* text that is not JSON: JSONDecodeError *)
| Json (data : json).

(** A regular file carries its own read and write permission; directories
    can always be searched and written to. *)
Inductive node : Type :=
| File (readable writable : bool) (c : contents)
| Dir (entries : gmap string node).

(** The state is the content of the root directory. *)
Abbreviation filesystem := (gmap string node).

Fixpoint walk (fs : filesystem) (p : path) : option node :=
  match p with
  | [] => Some (Dir fs)
  | name :: p' =>
      match fs !! name with
      | Some (Dir sub) => walk sub p'
      | Some (File r w c) =>
          match p' with
          | [] => Some (File r w c)
          | _ :: _ => None
          end
      | None => None
      end
  end.

(** [Path.is_file()] *)
Definition is_file (fs : filesystem) (p : path) : bool :=
  match walk fs p with
  | Some (File _ _ _) => true
  | _ => false
  end.

(** [Path.parent] *)
Definition path_parent (p : path) : path := removelast p.

(** [Path.mkdir(parents=True, exist_ok=True)]: [None] stands for the
    [OSError] raised when a regular file is in the way.  The other ways
    [mkdir] can fail (a directory that may not be written to, a full
    disk) are not represented, so a success here says that no regular
    file was in the way. *)
Fixpoint mkdir_parents (fs : filesystem) (p : path) : option filesystem :=
  match p with
  | [] => Some fs
  | name :: p' =>
      match fs !! name with
      | Some (File _ _ _) => None
      | Some (Dir sub) =>
          (λ sub', <[name := Dir sub']> fs) <$> mkdir_parents sub p'
      | None =>
          (λ sub', <[name := Dir sub']> fs) <$> mkdir_parents ∅ p'
      end
  end.

(** [open(p, 'w')] followed by writing text that reads back as [c]: a new
    file is created readable and writable, an existing one keeps its
    permissions.  [None] stands for the [OSError] of [open] on a
    directory, on a file that may not be written or under a missing
    parent; a name the system refuses and an error in the middle of
    writing are not represented. *)
Fixpoint write_file (fs : filesystem) (p : path) (c : contents)
  : option filesystem :=
  match p with
  | [] => None
  | name :: p' =>
      match p' with
      | [] =>
          match fs !! name with
          | None => Some (<[name := File true true c]> fs)
          | Some (File r w _) =>
              if w then Some (<[name := File r w c]> fs) else None
          | Some (Dir _) => None
          end
      | _ :: _ =>
          match fs !! name with
          | Some (Dir sub) =>
              (λ sub', <[name := Dir sub']> fs) <$> write_file sub p' c
          | _ => None
          end
      end
  end.

(** [open(p, 'r')] and [json.load]. *)
Definition open_and_load (fs : filesystem) (p : path) : result json :=
  match walk fs p with
  | None => Raise FileNotFoundError
  | Some (Dir _) => Raise OSError
  | Some (File r _ c) =>
      if r then
        match c with
        | Undecodable => Raise UnicodeDecodeError
        | NotJson => Raise JSONDecodeError
        | Json data => Ok data
        end
      else Raise OSError
  end.

(** ** Helper functions *)

Definition AGENT_COMM_DIR_NAME : path := ["agent_docs"; "multi_agent"].

Definition get_comm_dir (fs : filesystem) (project_root : path)
  : result path * filesystem :=
  let comm_path := (project_root ++ AGENT_COMM_DIR_NAME)%list in
  match mkdir_parents fs comm_path with
  | Some fs' => (Ok comm_path, fs')
  | None => (Raise (ToolError CommDirUnavailable), fs)
  end.

(** Returns [None] on the errors it catches; a [UnicodeDecodeError] is not
    among them. *)
Definition read_json_file (fs : filesystem) (filepath : path)
  : result (option json) :=
  match open_and_load fs filepath with
  | Ok data => Ok (Some data)
  | Raise FileNotFoundError => Ok None
  | Raise JSONDecodeError => Ok None
  | Raise OSError => Ok None
  | Raise e => Raise e
  end.

(** Every JSON value serialises, so only [mkdir] and [open] can fail. *)
Definition write_json_file (fs : filesystem) (filepath : path) (data : json)
  : bool * filesystem :=
  match mkdir_parents fs (path_parent filepath) with
  | None => (false, fs)
  | Some fs1 =>
      match write_file fs1 filepath (Json data) with
      | Some fs2 => (true, fs2)
      | None => (false, fs1)
      end
  end.

(** ** Tool inputs *)

(** [Literal["answered", "partial", "error"]] *)
Inductive status_literal : Type := answered | partial | error.

Definition status_str (s : status_literal) : string :=
  match s with
  | answered => "answered"
  | partial => "partial"
  | error => "error"
  end.

Record UpdateStatusInput : Type := {
  us_request_filepath : path;
  new_status : status_literal;
  error_message : option string
}.

Record AddAnswerInput : Type := {
  aa_request_filepath : path;
  question_id : string;
  answer : document
}.

(** ** Tools *)

(** The body of the inner [try] of the scan: is [item] appended? *)
Definition scan_item_body (fs : filesystem) (item : path) : result bool :=
  data ← open_and_load fs item;
  if truthy data then
    status ← py_get data "status";
    Ok (py_eq_str status "pending")
  else Ok false.

(** The inner [try] with its [except (JSONDecodeError, OSError,
    UnicodeDecodeError)] clause. *)
Definition scan_item (fs : filesystem) (item : path) : result bool :=
  match scan_item_body fs item with
  | Raise JSONDecodeError | Raise OSError | Raise FileNotFoundError
  | Raise UnicodeDecodeError => Ok false
  | r => r
  end.

Fixpoint scan_loop (fs : filesystem) (items : list path)
    (pending_requests : list path) : result (list path) :=
  match items with
  | [] => Ok pending_requests
  | item :: items' =>
      if is_file fs item then
        found ← scan_item fs item;
        scan_loop fs items'
          (if found : bool then (pending_requests ++ [item])%list
           else pending_requests)
      else scan_loop fs items' pending_requests
  end.

(** [fnmatch(name, '*.json')] *)
Definition is_json_name (name : string) : bool :=
  bool_decide (substring (String.length name - 5) 5 name = ".json").

(** [comm_dir.glob('*.json')], in directory-enumeration order. *)
Definition glob_json (fs : filesystem) (dir : path) : list path :=
  match walk fs dir with
  | Some (Dir entries) =>
      (λ name, (dir ++ [name])%list) <$> filter (λ name, is_json_name name = true)
                                        (map_to_list entries).*1
  | _ => []
  end.

Definition check_for_new_requests (fs : filesystem) (project_root : path)
  : result (list path) * filesystem :=
  match get_comm_dir fs project_root with
  | (Raise e, fs') => (Raise e, fs')
  | (Ok comm_dir, fs') =>
      match scan_loop fs' (glob_json fs' comm_dir) [] with
      | Ok pending_requests => (Ok pending_requests, fs')
      | Raise _ => (Raise (ToolError ScanFailed), fs')
      end
  end.

(** [v is None] *)
Definition is_none (v : json) : bool :=
  match v with
  | JNull => true
  | _ => false
  end.

(** [{k: v for k, v in summary.items() if v is not None}] *)
Definition filter_not_none (summary : list (string * json)) : document :=
  list_to_map (filter (λ kv, is_none kv.2 = false) summary).

Definition question_summary (q : document) : json :=
  JDict (<["question_id" := default JNull (q !! "question_id")]>
        (<["text" := default JNull (q !! "text")]> ∅)).

(** The part of each per-file tool up to [if not data]. *)
Definition load_request (fs : filesystem) (request_filepath : path)
  : result json :=
  if is_file fs request_filepath then
    data ← read_json_file fs request_filepath;
    match data with
    | Some data =>
        if truthy data then Ok data
        else Raise (ToolError ReadOrParseFailed)
    | None => Raise (ToolError ReadOrParseFailed)
    end
  else Raise (ToolError RequestFileNotFound).

Definition get_request_summary (fs : filesystem) (request_filepath : path)
  : result document :=
  data ← load_request fs request_filepath;
  task_id ← py_get data "task_id";
  qs ← py_get_default data "questions" (JList []);
  dicts ← iter_dicts qs;
  desired_output ← py_get data "desired_output";
  Ok (filter_not_none
        [("task_id", task_id);
         ("questions", JList (question_summary <$> dicts));
         ("desired_output", desired_output)]).

Definition get_request_details (fs : filesystem) (request_filepath : path)
  : result json :=
  data ← load_request fs request_filepath;
  _ ← py_get data "task_id";
  Ok data.

(** The document [update_request_status] builds from the one it read. *)
Definition update_request_status_data (now : string) (input : UpdateStatusInput)
    (data : json) : result json :=
  data ← py_setitem data "status" (JStr (status_str (new_status input)));
  data ← py_setitem data "response_timestamp" (JStr now);
  match new_status input, error_message input with
  | error, Some msg =>
      if truthy (JStr msg) then py_setitem data "error_details" (JStr msg)
      else Ok data
  | _, _ => Ok data
  end.

(** [now] is the value of [get_current_timestamp()] during the call. *)
Definition update_request_status (fs : filesystem) (now : string)
    (input : UpdateStatusInput) : result unit * filesystem :=
  match (data ← load_request fs (us_request_filepath input);
         update_request_status_data now input data) with
  | Raise e => (Raise e, fs)
  | Ok data =>
      match write_json_file fs (us_request_filepath input) data with
      | (true, fs') => (Ok tt, fs')
      | (false, fs') => (Raise (ToolError WriteFailed), fs')
      end
  end.

(** The [for question in data["questions"]] loop with its [break]: the
    list after the assignment, or [None] when [updated] stays [False]. *)
Fixpoint answer_first (qid : string) (ans : document) (questions : list json)
  : option (list json) :=
  match questions with
  | [] => None
  | question :: rest =>
      match question with
      | JDict q =>
          if py_eq_str (default JNull (q !! "question_id")) qid
          then Some (JDict (<["answer" := JDict ans]> q) :: rest)
          else cons question <$> answer_first qid ans rest
      | _ => cons question <$> answer_first qid ans rest
      end
  end.

(** The document [add_answer_to_request] builds from the one it read.  The
    loop assigns into a dict held by the list held by [data]; here the
    changed list is put back under ["questions"]. *)
Definition add_answer_data (now : string) (input : AddAnswerInput)
    (data : json) : result json :=
  has_questions ← py_contains "questions" data;
  updated ←
    (if has_questions : bool then
       questions ← py_getitem data "questions";
       match questions with
       | JList l =>
           match answer_first (question_id input) (answer input) l with
           | Some l' => data' ← py_setitem data "questions" (JList l');
                        Ok (Some data')
           | None => Ok None
           end
       | _ => Ok None
       end
     else Ok None);
  match updated with
  | None => Raise (ToolError QuestionIdNotFound)
  | Some data' => py_setitem data' "response_timestamp" (JStr now)
  end.

Definition add_answer_to_request (fs : filesystem) (now : string)
    (input : AddAnswerInput) : result unit * filesystem :=
  match (data ← load_request fs (aa_request_filepath input);
         add_answer_data now input data) with
  | Raise e => (Raise e, fs)
  | Ok data =>
      match write_json_file fs (aa_request_filepath input) data with
      | (true, fs') => (Ok tt, fs')
      | (false, fs') => (Raise (ToolError WriteFailed), fs')
      end
  end.

(** ** The file name of an associated file *)

Fixpoint str_map (f : ascii → ascii) (s : string) : string :=
  match s with
  | EmptyString => EmptyString
  | String c s' => String (f c) (str_map f s')
  end.

(** [s.lstrip(chars)] *)
Fixpoint lstrip (chars : list ascii) (s : string) : string :=
  match s with
  | EmptyString => EmptyString
  | String c s' => if bool_decide (c ∈ chars) then lstrip chars s' else s
  end.

(** [c in s] for a character [c]. *)
Fixpoint str_has (c : ascii) (s : string) : bool :=
  match s with
  | EmptyString => false
  | String c' s' => bool_decide (c' = c) || str_has c s'
  end.

Section Sanitizer.

(** [str.isalnum] on one character.  The interpreter decides it from its
    Unicode tables, so it is a parameter here; a character is an [ascii]
    and nothing below depends on the size of the alphabet. *)
Variable isalnum : ascii → bool.

(** [c if c.isalnum() or c in allowed else '_'] *)
Definition safe_char (allowed : list ascii) (c : ascii) : ascii :=
  if isalnum c || bool_decide (c ∈ allowed) then c else "_"%char.

Definition safe_task_id (task_id : string) : string :=
  str_map (safe_char ["-"; "_"]%char) task_id.

Definition safe_suffix (filename_suffix : string) : string :=
  let safe_suffix := str_map (safe_char ["-"; "_"; "."]%char) filename_suffix in
  let safe_suffix := lstrip ["."; "/"; "\"]%char safe_suffix in
  if bool_decide (safe_suffix = "") then "_file" else safe_suffix.

(** [filename] in [create_associated_file]. *)
Definition associated_filename (task_id filename_suffix : string) : string :=
  safe_task_id task_id ++ safe_suffix filename_suffix.

End Sanitizer.

(** [str.isalnum] restricted to ASCII letters and digits. *)
Definition ascii_isalnum (c : ascii) : bool :=
  let n := nat_of_ascii c in
  (((48 <=? n) && (n <=? 57)) || ((65 <=? n) && (n <=? 90))
   || ((97 <=? n) && (n <=? 122)))%nat.

(** ** Creating an associated file *)

Record CreateFileInput : Type := {
  cf_project_root : path;
  cf_task_id : string;
  cf_content : string;
  cf_filename_suffix : string
}.

(** How a call of [create_associated_file] ends.  Its own [ToolError] has
    a message no other tool uses; the error of [get_comm_dir] is raised
    before the [try] and passes through. *)
Inductive create_file_outcome : Type :=
| CreateFileOutput (filepath : path)
| CreateFileRaise (e : exn)
| CreateFileFailed.   (* "Failed to create associated file: ..." *)

Section AssociatedFile.

Variable isalnum : ascii → bool.

(** What [open] and [json.load] would later make of a text written to a
    file; the [json] module decides it. *)
Variable text_contents : string → contents.

(** [comm_dir / filename] is one level below [comm_dir]: the file name has
    no separator, is not empty and does not start with a dot.  The
    failures are those of [write_file]; content that cannot be encoded,
    which the source turns into its second [ToolError] after the file is
    truncated, is not represented. *)
Definition create_associated_file (fs : filesystem) (input : CreateFileInput)
  : create_file_outcome * filesystem :=
  match get_comm_dir fs (cf_project_root input) with
  | (Raise e, fs1) => (CreateFileRaise e, fs1)
  | (Ok comm_dir, fs1) =>
      let filename :=
        associated_filename isalnum (cf_task_id input) (cf_filename_suffix input) in
      let filepath := (comm_dir ++ [filename])%list in
      match mkdir_parents fs1 (path_parent filepath) with
      | None => (CreateFileFailed, fs1)
      | Some fs2 =>
          match write_file fs2 filepath (text_contents (cf_content input)) with
          | Some fs3 => (CreateFileOutput filepath, fs3)
          | None => (CreateFileFailed, fs2)
          end
      end
  end.

End AssociatedFile.

(** ** Predicates used in the statements *)

(** No dict of the document's questions list carries the id [qid]. *)
Definition no_matching_question (d : document) (qid : string) : Prop :=
  ∀ l q, d !! "questions" = Some (JList l) → JDict q ∈ l →
         q !! "question_id" ≠ Some (JStr qid).

(** [error_details] present implies [status == "error"]. *)
Definition error_details_only_on_error (d : document) : Prop :=
  is_Some (d !! "error_details") → d !! "status" = Some (JStr "error").


(** The readable file at [item] holds a document whose status is
    ["pending"]. *)
Definition holds_pending (fs : filesystem) (item : path) : bool :=
  match walk fs item with
  | Some (File true _ (Json (JDict d))) =>
      py_eq_str (default JNull (d !! "status")) "pending"
  | _ => false
  end.

(** The readable file at [item] parses to a truthy value that is not an
    object. *)
Definition holds_non_object (fs : filesystem) (item : path) : bool :=
  match walk fs item with
  | Some (File true _ (Json (JDict _))) => false
  | Some (File true _ (Json data)) => truthy data
  | _ => false
  end.

(** ** Sample states *)

Definition sample_path : path := ["p"; "agent_docs"; "multi_agent"; "t1.json"].

(** The project [/p] with its communication directory holding [files]. *)
Definition project (files : gmap string node) : filesystem :=
  {[ "p" := Dir {[ "agent_docs" := Dir {[ "multi_agent" := Dir files ]} ]} ]}.

Definition sample_fs (data : json) : filesystem :=
  project {[ "t1.json" := File true true (Json data) ]}.

Definition sample_question : document :=
  {[ "question_id" := JStr "q1"; "text" := JStr "Why?" ]}.

Definition sample_document : document :=
  {[ "task_id" := JStr "t1"; "status" := JStr "pending";
     "questions" := JList [JDict sample_question] ]}.

(** A question that carries an answer and a field the protocol does not
    know. *)
Definition answered_question : document :=
  {[ "question_id" := JStr "q1"; "text" := JStr "Why?";
     "answer" := JDict {[ "response_text" := JStr "because" ]};
     "priority" := JInt 1 ]}.

(** An answered request whose questions list also holds an entry that is
    not an object and one without a text. *)
Definition answered_document : document :=
  {[ "task_id" := JStr "t1"; "status" := JStr "answered";
     "questions" := JList [JStr "junk"; JDict answered_question;
                           JDict {[ "question_id" := JStr "q2" ]}];
     "desired_output" := JStr "markdown";
     "response_timestamp" := JStr "2026-01-01T00:00:00+00:00" ]}.





(** A communication directory with a pending request, an answered one, a
    file that is not JSON, one that is not UTF-8, one that cannot be
    opened, a directory named like a request and a file of another
    kind. *)
Definition mixed_files : gmap string node :=
  {[ "t1.json" := File true true (Json (JDict sample_document));
     "t2.json" := File true true
                    (Json (JDict (<["status" := JStr "answered"]> sample_document)));
     "broken.json" := File true true NotJson;
     "binary.json" := File true true Undecodable;
     "locked.json" := File false true (Json (JDict sample_document));
     "dir.json" := Dir ∅;
     "t1_response.md" := File true true NotJson ]}.

(** ** The file system *)

Lemma walk_file_nonempty (fs : filesystem) p r w c :
  walk fs p = Some (File r w c) → p ≠ [].
Proof. by destruct p. Qed.

Lemma mkdir_parents_of_file (fs : filesystem) p r w c :
  walk fs p = Some (File r w c) → mkdir_parents fs (path_parent p) = Some fs.
Proof.
  revert fs. induction p as [|name p IH]; intros fs Hw; [done|].
  cbn in Hw. destruct (fs !! name) as [[r' w' c'|sub]|] eqn:Hn; [| |done].
  - destruct p; [done|discriminate].
  - destruct p as [|name' p]; [done|].
    change (path_parent (name :: name' :: p))
      with (name :: path_parent (name' :: p)).
    cbn [mkdir_parents]. rewrite Hn, (IH _ Hw). cbn.
    by rewrite insert_id.
Qed.

Lemma write_file_cons (fs : filesystem) name name' p c :
  write_file fs (name :: name' :: p) c =
  match fs !! name with
  | Some (Dir sub) =>
      (λ sub', <[name := Dir sub']> fs) <$> write_file sub (name' :: p) c
  | _ => None
  end.
Proof. done. Qed.

Lemma write_file_existing (fs : filesystem) p r c c' :
  walk fs p = Some (File r true c) →
  ∃ fs', write_file fs p c' = Some fs' ∧ walk fs' p = Some (File r true c').
Proof.
  revert fs. induction p as [|name p IH]; intros fs Hw; [done|].
  cbn in Hw. destruct (fs !! name) as [[r' w' c0|sub]|] eqn:Hn; [| |done].
  - destruct p; [|done]. simplify_eq. cbn. rewrite Hn.
    eexists; split; [done|]. cbn. by rewrite lookup_insert_eq.
  - destruct p as [|name' p]; [done|].
    destruct (IH _ Hw) as (sub' & Hwr & Hw').
    rewrite write_file_cons, Hn, Hwr. cbn [fmap option_fmap option_map].
    eexists; split; [done|].
    cbn [walk]. by rewrite lookup_insert_eq.
Qed.

Lemma write_file_readonly (fs : filesystem) p r c c' :
  walk fs p = Some (File r false c) → write_file fs p c' = None.
Proof.
  revert fs. induction p as [|name p IH]; intros fs Hw; [done|].
  cbn in Hw. destruct (fs !! name) as [[r' w' c0|sub]|] eqn:Hn; [| |done].
  - destruct p; [|done]. simplify_eq. cbn. by rewrite Hn.
  - destruct p as [|name' p]; [done|].
    by rewrite write_file_cons, Hn, (IH _ Hw).
Qed.

Lemma write_file_walk (fs fs' : filesystem) p c :
  write_file fs p c = Some fs' → ∃ r w, walk fs' p = Some (File r w c).
Proof.
  revert fs fs'. induction p as [|name p IH]; intros fs fs' Hwr; [done|].
  destruct p as [|name' p].
  - cbn in Hwr. destruct (fs !! name) as [[r w c0|sub]|] eqn:Hn.
    + destruct w; [|done]. simplify_eq. exists r, true.
      cbn. by rewrite lookup_insert_eq.
    + done.
    + simplify_eq. exists true, true. cbn. by rewrite lookup_insert_eq.
  - rewrite write_file_cons in Hwr.
    destruct (fs !! name) as [[r w c0|sub]|] eqn:Hn; [done| |done].
    destruct (write_file sub (name' :: p) c) as [sub'|] eqn:Hsub; [|done].
    cbn in Hwr. simplify_eq.
    destruct (IH _ _ Hsub) as (r & w & Hw). exists r, w.
    cbn [walk]. by rewrite lookup_insert_eq.
Qed.

Lemma walk_empty_file p r w c : walk ∅ p ≠ Some (File r w c).
Proof. destruct p; [done|]. cbn. by rewrite lookup_empty. Qed.

(** Creating directories leaves the regular files as they were. *)
Lemma mkdir_parents_walk_file (fs fs' : filesystem) p q r w c :
  mkdir_parents fs p = Some fs' →
  walk fs' q = Some (File r w c) → walk fs q = Some (File r w c).
Proof.
  revert fs fs' q. induction p as [|name p IH]; intros fs fs' q Hmk Hw.
  { cbn in Hmk. by simplify_eq. }
  cbn in Hmk. destruct q as [|n q]; [done|].
  destruct (fs !! name) as [[r' w' c'|sub]|] eqn:Hn; [done| |].
  - destruct (mkdir_parents sub p) as [sub'|] eqn:Hsub; [|done].
    cbn in Hmk. simplify_eq. cbn in Hw |- *.
    destruct (decide (name = n)) as [->|Hne].
    + rewrite lookup_insert_eq in Hw. rewrite Hn. by eapply IH.
    + by rewrite lookup_insert_ne in Hw.
  - destruct (mkdir_parents ∅ p) as [sub'|] eqn:Hsub; [|done].
    cbn in Hmk. simplify_eq. cbn in Hw |- *.
    destruct (decide (name = n)) as [->|Hne].
    + rewrite lookup_insert_eq in Hw.
      by apply (IH _ _ _ Hsub), walk_empty_file in Hw.
    + by rewrite lookup_insert_ne in Hw.
Qed.

(** Writing one file leaves the other regular files as they were. *)
Lemma write_file_walk_other (fs fs' : filesystem) p q c r w c0 :
  write_file fs p c = Some fs' → q ≠ p →
  walk fs' q = Some (File r w c0) → walk fs q = Some (File r w c0).
Proof.
  revert fs fs' q. induction p as [|name p IH]; intros fs fs' q Hwr Hne Hw; [done|].
  destruct q as [|n q]; [done|].
  destruct p as [|name' p].
  - cbn in Hwr.
    assert (∃ f, fs' = <[name := f]> fs ∧ ∃ r1 w1 c1, f = File r1 w1 c1)
      as (f & -> & r1 & w1 & c1 & ->).
    { destruct (fs !! name) as [[r1 w1 c1|sub]|]; [destruct w1| |];
        simplify_eq; eauto 10. }
    cbn in Hw |- *. destruct (decide (name = n)) as [->|Hnn].
    + rewrite lookup_insert_eq in Hw. destruct q; [congruence|done].
    + by rewrite lookup_insert_ne in Hw.
  - rewrite write_file_cons in Hwr.
    destruct (fs !! name) as [[r1 w1 c1|sub]|] eqn:Hn; [done| |done].
    destruct (write_file sub (name' :: p) c) as [sub'|] eqn:Hsub; [|done].
    cbn in Hwr. simplify_eq. cbn [walk] in Hw |- *.
    destruct (decide (name = n)) as [->|Hnn].
    + rewrite lookup_insert_eq in Hw. rewrite Hn.
      eapply IH; [done| |done]. congruence.
    + by rewrite lookup_insert_ne in Hw.
Qed.

(** ** [write_json_file] *)

Lemma write_json_file_walk (fs fs' : filesystem) p data :
  write_json_file fs p data = (true, fs') →
  ∃ r w, walk fs' p = Some (File r w (Json data)).
Proof.
  unfold write_json_file. intros H.
  destruct (mkdir_parents fs (path_parent p)) as [fs1|]; [|done].
  destruct (write_file fs1 p (Json data)) as [fs2|] eqn:Hwr; [|done].
  simplify_eq. by eapply write_file_walk.
Qed.

Lemma write_json_file_existing (fs : filesystem) p r c data :
  walk fs p = Some (File r true c) →
  ∃ fs', write_json_file fs p data = (true, fs')
         ∧ walk fs' p = Some (File r true (Json data)).
Proof.
  intros Hw. unfold write_json_file.
  rewrite (mkdir_parents_of_file _ _ _ _ _ Hw).
  destruct (write_file_existing fs p r c (Json data) Hw) as (fs' & -> & Hw').
  eauto.
Qed.

Lemma write_json_file_readonly (fs : filesystem) p r c data :
  walk fs p = Some (File r false c) → write_json_file fs p data = (false, fs).
Proof.
  intros Hw. unfold write_json_file.
  by rewrite (mkdir_parents_of_file _ _ _ _ _ Hw),
    (write_file_readonly _ _ _ _ _ Hw).
Qed.

Lemma write_json_file_other (fs fs' : filesystem) p q data b r w c :
  write_json_file fs p data = (b, fs') → q ≠ p ∨ b = false →
  walk fs' q = Some (File r w c) → walk fs q = Some (File r w c).
Proof.
  unfold write_json_file. intros H Hq Hw.
  destruct (mkdir_parents fs (path_parent p)) as [fs1|] eqn:Hmk;
    [|by simplify_eq].
  destruct (write_file fs1 p (Json data)) as [fs2|] eqn:Hwr; simplify_eq.
  - destruct Hq as [Hq|]; [|done].
    eapply mkdir_parents_walk_file; [done|].
    by eapply write_file_walk_other.
  - by eapply mkdir_parents_walk_file.
Qed.

(** ** Reading a request *)

Lemma load_request_file (fs : filesystem) p w data :
  walk fs p = Some (File true w (Json data)) →
  load_request fs p =
    if truthy data then Ok data else Raise (ToolError ReadOrParseFailed).
Proof.
  intros Hw. unfold load_request, is_file, read_json_file, open_and_load.
  rewrite Hw. cbn. by destruct (truthy data).
Qed.

Lemma truthy_document (d : document) : truthy (JDict d) = true ↔ d ≠ ∅.
Proof.
  cbn. rewrite negb_true_iff, bool_decide_eq_false. done.
Qed.

Lemma load_request_document (fs : filesystem) p w (d : document) :
  walk fs p = Some (File true w (Json (JDict d))) → d ≠ ∅ →
  load_request fs p = Ok (JDict d).
Proof.
  intros Hw Hd. rewrite (load_request_file _ _ _ _ Hw).
  apply truthy_document in Hd. by rewrite Hd.
Qed.

(** A request that loads is the truthy content of a readable file. *)
Lemma load_request_Ok (fs : filesystem) p data :
  load_request fs p = Ok data →
  truthy data = true ∧ ∃ w, walk fs p = Some (File true w (Json data)).
Proof.
  unfold load_request, is_file, read_json_file, open_and_load.
  destruct (walk fs p) as [[r w c|sub]|]; [|done..].
  destruct r; [|done]. destruct c as [| |data']; [done..|]. cbn.
  destruct (truthy data') eqn:Ht; [|done]. intros; simplify_eq. eauto.
Qed.

(** ** [add_answer_to_request] *)

Lemma py_eq_question_id (q : document) qid :
  py_eq_str (default JNull (q !! "question_id")) qid = true
  ↔ q !! "question_id" = Some (JStr qid).
Proof.
  destruct (q !! "question_id") as [[]|] eqn:Hq; cbn; try (split; done).
  rewrite bool_decide_eq_true. split; congruence.
Qed.

Lemma answer_first_None qid ans (l : list json) :
  (∀ q, JDict q ∈ l → q !! "question_id" ≠ Some (JStr qid)) →
  answer_first qid ans l = None.
Proof.
  induction l as [|v l IH]; intros Hno; [done|].
  assert (answer_first qid ans l = None) as Hl.
  { apply IH. intros q Hq. apply Hno. by right. }
  cbn. destruct v as [| | | | | |q]; rewrite ?Hl; try done.
  destruct (py_eq_str _ qid) eqn:He; [|done].
  apply py_eq_question_id in He. destruct (Hno q); [left|done].
Qed.

Lemma answer_first_Some qid ans (l : list json) (q0 : document) :
  JDict q0 ∈ l → q0 !! "question_id" = Some (JStr qid) →
  ∃ i q,
    l !! i = Some (JDict q) ∧ q !! "question_id" = Some (JStr qid)
    ∧ (∀ j q', j < i → l !! j = Some (JDict q') →
               q' !! "question_id" ≠ Some (JStr qid))
    ∧ answer_first qid ans l
      = Some (<[i := JDict (<["answer" := JDict ans]> q)]> l).
Proof.
  induction l as [|v l IH]; intros Hin Hq0; [by apply elem_of_nil in Hin|].
  assert (Decision (∃ q, v = JDict q ∧ q !! "question_id" = Some (JStr qid)))
    as [(q & -> & Hq)|Hv].
  { destruct v as [| | | | | |q]; try (right; intros (? & ? & ?); done).
    destruct (py_eq_str (default JNull (q !! "question_id")) qid) eqn:He.
    - left. exists q. by apply py_eq_question_id in He.
    - right. intros (q' & ? & Hq'). simplify_eq.
      apply py_eq_question_id in Hq'. congruence. }
  - exists 0, q. split_and!; [done..|lia|].
    cbn. apply py_eq_question_id in Hq. by rewrite Hq.
  - apply elem_of_cons in Hin as [<-|Hin]; [destruct Hv; eauto|].
    destruct (IH Hin Hq0) as (i & q & Hi & Hq & Hfirst & Hans).
    exists (S i), q. split_and!; [done..| |].
    + intros [|j] q' Hj Hl; cbn in Hl.
      * intros Hq'. simplify_eq. destruct Hv; eauto.
      * apply (Hfirst j q'); [lia|done].
    + cbn. rewrite Hans. destruct v as [| | | | | |q']; try done.
      destruct (py_eq_str _ qid) eqn:He; [|done].
      apply py_eq_question_id in He. destruct Hv; eauto.
Qed.

Lemma add_answer_data_no_match now input (d : document) :
  no_matching_question d (question_id input) →
  add_answer_data now input (JDict d) = Raise (ToolError QuestionIdNotFound).
Proof.
  intros Hno. unfold add_answer_data. cbn.
  destruct (d !! "questions") as [v|] eqn:Hv; [|done].
  rewrite bool_decide_true by eauto. cbn.
  destruct v as [| | | | |l|]; try done.
  rewrite answer_first_None; [done|]. intros q. by apply Hno.
Qed.

Lemma add_answer_data_match now input (d : document) l l' :
  d !! "questions" = Some (JList l) →
  answer_first (question_id input) (answer input) l = Some l' →
  add_answer_data now input (JDict d)
  = Ok (JDict (<["response_timestamp" := JStr now]>
                (<["questions" := JList l']> d))).
Proof.
  intros Hq Hans. unfold add_answer_data. cbn.
  rewrite Hq, bool_decide_true by eauto. cbn. by rewrite Hans.
Qed.

(** A failed [add_answer_to_request] has written nothing. *)
Lemma add_answer_failure_no_write (fs fs' : filesystem) now input e :
  add_answer_to_request fs now input = (Raise e, fs') → fs' = fs.
Proof.
  unfold add_answer_to_request.
  destruct (load_request fs (aa_request_filepath input)) as [data|] eqn:Hl;
    cbn; [|by intros; simplify_eq].
  apply load_request_Ok in Hl as (_ & w & Hw).
  destruct (add_answer_data now input data) as [data'|]; [|by intros; simplify_eq].
  unfold write_json_file. rewrite (mkdir_parents_of_file _ _ _ _ _ Hw).
  destruct (write_file fs _ _); intros; by simplify_eq.
Qed.

(** C1, as amended: for every non-empty document in a readable request file
    and every question id that no entry of its questions list carries,
    [add_answer_to_request] fails with the question-id-not-found error (a
    NotFoundError) and leaves the file system, hence the stored document,
    as it was. *)
Theorem add_answer_unknown_question (fs : filesystem) now input w (d : document) :
  walk fs (aa_request_filepath input) = Some (File true w (Json (JDict d))) →
  d ≠ ∅ →
  no_matching_question d (question_id input) →
  add_answer_to_request fs now input
    = (Raise (ToolError QuestionIdNotFound), fs)
  ∧ is_not_found QuestionIdNotFound = true.
Proof.
  intros Hw Hd Hno. split; [|done]. unfold add_answer_to_request.
  rewrite (load_request_document _ _ _ _ Hw Hd). cbn [bind].
  by rewrite add_answer_data_no_match.
Qed.

Lemma add_answer_unknown_question_witness :
  add_answer_to_request (sample_fs (JDict sample_document)) "2026-01-01T00:00:00+00:00"
    {| aa_request_filepath := sample_path; question_id := "q2";
       answer := {[ "response_text" := JStr "because" ]} |}
  = (Raise (ToolError QuestionIdNotFound), sample_fs (JDict sample_document)).
Proof.
  refine (proj1 (add_answer_unknown_question (sample_fs (JDict sample_document))
    _ _ true sample_document _ _ _)).
  - reflexivity.
  - intros H. apply (f_equal (lookup "task_id")) in H. vm_compute in H. discriminate.
  - intros l q Hl Hq. vm_compute in Hl. injection Hl as <-.
    apply list_elem_of_singleton in Hq. injection Hq as ->.
    vm_compute. discriminate.
Defined.

(** C1 as stated fails on the empty document: no entry carries the id, yet
    the error raised is the read-or-parse failure, not a NotFoundError. *)
Lemma add_answer_empty_document_counterexample :
  no_matching_question ∅ "q1"
  ∧ add_answer_to_request (sample_fs (JDict ∅)) "2026-01-01T00:00:00+00:00"
      {| aa_request_filepath := sample_path; question_id := "q1";
         answer := {[ "response_text" := JStr "because" ]} |}
    = (Raise (ToolError ReadOrParseFailed), sample_fs (JDict ∅))
  ∧ is_not_found ReadOrParseFailed = false.
Proof.
  split_and!; [|reflexivity..].
  intros l q Hl. by rewrite lookup_empty in Hl.
Qed.




(** ** [update_request_status] *)

Lemma update_request_status_data_document now input (d : document) :
  update_request_status_data now input (JDict d)
  = Ok (JDict
      (let d1 := <["response_timestamp" := JStr now]>
                   (<["status" := JStr (status_str (new_status input))]> d) in
       match new_status input, error_message input with
       | error, Some msg =>
           if bool_decide (msg = "") then d1
           else <["error_details" := JStr msg]> d1
       | _, _ => d1
       end)).
Proof.
  unfold update_request_status_data. cbn.
  destruct (new_status input), (error_message input) as [msg|]; try done.
  cbn. by destruct (bool_decide (msg = "")).
Qed.

(** A failed [update_request_status] has written nothing. *)
Lemma update_status_failure_no_write (fs fs' : filesystem) now input e :
  update_request_status fs now input = (Raise e, fs') → fs' = fs.
Proof.
  unfold update_request_status.
  destruct (load_request fs (us_request_filepath input)) as [data|] eqn:Hl;
    cbn; [|by intros; simplify_eq].
  apply load_request_Ok in Hl as (_ & w & Hw).
  destruct (update_request_status_data now input data) as [data'|];
    [|by intros; simplify_eq].
  unfold write_json_file. rewrite (mkdir_parents_of_file _ _ _ _ _ Hw).
  destruct (write_file fs _ _); intros; by simplify_eq.
Qed.

(** The outcome of [update_request_status] on a readable, writable,
    non-empty document. *)
Lemma update_request_status_result (fs : filesystem) now input (d : document) :
  walk fs (us_request_filepath input) = Some (File true true (Json (JDict d))) →
  d ≠ ∅ →
  ∃ fs' (d' : document),
    update_request_status fs now input = (Ok tt, fs')
    ∧ walk fs' (us_request_filepath input)
      = Some (File true true (Json (JDict d')))
    ∧ d' !! "status" = Some (JStr (status_str (new_status input)))
    ∧ d' !! "response_timestamp" = Some (JStr now)
    ∧ d' !! "error_details"
      = match new_status input, error_message input with
        | error, Some msg =>
            if bool_decide (msg = "") then d !! "error_details"
            else Some (JStr msg)
        | _, _ => d !! "error_details"
        end
    ∧ (∀ k, k ≠ "status" → k ≠ "response_timestamp" → k ≠ "error_details" →
            d' !! k = d !! k).
Proof.
  intros Hw Hd.
  pose proof (update_request_status_data_document now input d) as Hdata.
  cbv zeta in Hdata.
  set (d1 := <["response_timestamp" := JStr now]>
               (<["status" := JStr (status_str (new_status input))]> d)) in *.
  assert (d1 !! "status" = Some (JStr (status_str (new_status input)))
          ∧ d1 !! "response_timestamp" = Some (JStr now)
          ∧ d1 !! "error_details" = d !! "error_details"
          ∧ ∀ k, k ≠ "status" → k ≠ "response_timestamp" → d1 !! k = d !! k)
    as (Hs & Ht & He & Hk).
  { unfold d1. split_and!.
    - rewrite lookup_insert_ne by done. by rewrite lookup_insert_eq.
    - by rewrite lookup_insert_eq.
    - by rewrite !lookup_insert_ne.
    - intros k ??. by rewrite !lookup_insert_ne. }
  match type of Hdata with _ = Ok (JDict ?x) => set (d' := x) in * end.
  destruct (write_json_file_existing fs _ true _ (JDict d') Hw) as (fs' & Hwr & Hw').
  exists fs', d'. split_and!; [|done|..].
  - unfold update_request_status.
    rewrite (load_request_document _ _ _ _ Hw Hd). cbn [bind].
    by rewrite Hdata, Hwr.
  - unfold d'. destruct (new_status input), (error_message input) as [msg|];
      try done. case_bool_decide; [done|]. by rewrite lookup_insert_ne.
  - unfold d'. destruct (new_status input), (error_message input) as [msg|];
      try done. case_bool_decide; [done|]. by rewrite lookup_insert_ne.
  - unfold d'. destruct (new_status input), (error_message input) as [msg|];
      try done. case_bool_decide; [done|]. by rewrite lookup_insert_eq.
  - intros k ???. unfold d'.
    destruct (new_status input), (error_message input) as [msg|]; auto.
    case_bool_decide; auto. rewrite lookup_insert_ne by done. auto.
Qed.


(** On a file that cannot be written the update fails with the write
    error and the file keeps its content. *)
Lemma update_request_status_readonly (fs : filesystem) now input (d : document) :
  walk fs (us_request_filepath input) = Some (File true false (Json (JDict d))) →
  d ≠ ∅ →
  update_request_status fs now input = (Raise (ToolError WriteFailed), fs).
Proof.
  intros Hw Hd. unfold update_request_status.
  rewrite (load_request_document _ _ _ _ Hw Hd). cbn [bind].
  rewrite update_request_status_data_document.
  by rewrite (write_json_file_readonly _ _ _ _ _ Hw).
Qed.

(** C4, as amended: for every readable (and writable) request file holding
    a non-empty document, [update_request_status] succeeds and the file then
    holds a document whose [status] is the new status and whose
    [response_timestamp] is the current time; [error_details] is set to the
    error message exactly when the new status is [error] and the message is
    present and not the empty string, and keeps its prior value (or
    absence) otherwise; every other field is unchanged. *)
Theorem update_status_document (fs : filesystem) now input (d : document) :
  walk fs (us_request_filepath input) = Some (File true true (Json (JDict d))) →
  d ≠ ∅ →
  ∃ fs' (d' : document),
    update_request_status fs now input = (Ok tt, fs')
    ∧ walk fs' (us_request_filepath input)
      = Some (File true true (Json (JDict d')))
    ∧ d' !! "status" = Some (JStr (status_str (new_status input)))
    ∧ d' !! "response_timestamp" = Some (JStr now)
    ∧ d' !! "error_details"
      = match new_status input, error_message input with
        | error, Some msg =>
            if bool_decide (msg = "") then d !! "error_details"
            else Some (JStr msg)
        | _, _ => d !! "error_details"
        end
    ∧ (∀ k, k ≠ "status" → k ≠ "response_timestamp" → k ≠ "error_details" →
            d' !! k = d !! k).
Proof. apply update_request_status_result. Qed.

Lemma update_status_document_witness :
  ∃ fs' (d' : document),
    update_request_status (sample_fs (JDict sample_document))
      "2026-01-01T00:00:00+00:00"
      {| us_request_filepath := sample_path; new_status := error;
         error_message := Some "boom" |}
    = (Ok tt, fs')
    ∧ walk fs' sample_path = Some (File true true (Json (JDict d')))
    ∧ d' !! "status" = Some (JStr "error")
    ∧ d' !! "error_details" = Some (JStr "boom").
Proof.
  destruct (update_status_document (sample_fs (JDict sample_document))
    "2026-01-01T00:00:00+00:00"
    {| us_request_filepath := sample_path; new_status := error;
       error_message := Some "boom" |} sample_document)
    as (fs' & d' & H1 & H2 & H3 & H4 & H5 & H6).
  - reflexivity.
  - intros H. apply (f_equal (lookup "task_id")) in H. vm_compute in H.
    discriminate.
  - exists fs', d'. split_and!; [exact H1|exact H2|exact H3|exact H5].
Defined.

(** C4 as stated fails for an error message that is present but empty: the
    status becomes [error], yet no [error_details] is set. *)
Lemma update_status_empty_message_counterexample :
  let d' : document :=
    <["response_timestamp" := JStr "2026-01-01T00:00:00+00:00"]>
      (<["status" := JStr "error"]> sample_document) in
  update_request_status (sample_fs (JDict sample_document))
    "2026-01-01T00:00:00+00:00"
    {| us_request_filepath := sample_path; new_status := error;
       error_message := Some "" |}
  = (Ok tt, sample_fs (JDict d'))
  ∧ d' !! "error_details" = None
  ∧ d' !! "error_details" ≠ Some (JStr "").
Proof. split_and!; [vm_compute; reflexivity|reflexivity|discriminate]. Qed.

(** ** What a successful call leaves in the file *)

Lemma update_request_status_data_Ok now input data data' :
  update_request_status_data now input data = Ok data' →
  ∃ d d' : document,
    data = JDict d ∧ data' = JDict d'
    ∧ d' !! "status" = Some (JStr (status_str (new_status input)))
    ∧ (new_status input = error ∨ d !! "error_details" = None →
       error_details_only_on_error d').
Proof.
  destruct data as [| | | | | |d]; try done.
  rewrite update_request_status_data_document. cbv zeta. intros [= <-].
  eexists d, _. split_and!; [done..| |].
  - destruct (new_status input), (error_message input) as [msg|];
      try case_bool_decide; rewrite ?(lookup_insert_ne _ "error_details") by done;
      by rewrite lookup_insert_ne, lookup_insert_eq.
  - intros Hcase Hsome. revert Hsome.
    destruct (new_status input) eqn:Hns, (error_message input) as [msg|];
      try case_bool_decide;
      rewrite ?(lookup_insert_ne _ "error_details" "status") by done;
      rewrite ?(lookup_insert_ne _ "response_timestamp" "status") by done;
      rewrite ?lookup_insert_eq; try done;
      rewrite !lookup_insert_ne by done;
      destruct Hcase as [?| ->]; try done; by intros [].
Qed.

Lemma add_answer_data_Ok now input data data' :
  add_answer_data now input data = Ok data' →
  ∃ d d' : document,
    data = JDict d ∧ data' = JDict d'
    ∧ (∀ k, k ≠ "questions" → k ≠ "response_timestamp" → d' !! k = d !! k).
Proof.
  unfold add_answer_data. destruct data as [| | | |s|l|d]; try done; cbn.
  - by destruct (str_contains _ _).
  - by destruct (existsb _ _).
  - case_bool_decide; [|done]. cbn.
    destruct (default JNull _) as [| | | | |l|]; try done.
    destruct (answer_first _ _ l) as [l'|]; [|done]. cbn. intros [= <-].
    eexists d, _. split_and!; [done..|].
    intros k ??. by rewrite !lookup_insert_ne.
Qed.

Lemma update_request_status_Ok (fs fs' : filesystem) now input :
  update_request_status fs now input = (Ok tt, fs') →
  ∃ data data' w r' w',
    walk fs (us_request_filepath input) = Some (File true w (Json data))
    ∧ update_request_status_data now input data = Ok data'
    ∧ write_json_file fs (us_request_filepath input) data' = (true, fs')
    ∧ walk fs' (us_request_filepath input) = Some (File r' w' (Json data')).
Proof.
  unfold update_request_status.
  destruct (load_request fs _) as [data|] eqn:Hl; [|done]. cbn [bind].
  destruct (update_request_status_data now input data) as [data'|] eqn:Hd;
    [|done].
  destruct (write_json_file fs _ data') as [[] fs1] eqn:Hwr; [|done].
  intros [= <-]. apply load_request_Ok in Hl as (_ & w & Hw).
  destruct (write_json_file_walk _ _ _ _ Hwr) as (r' & w' & Hw').
  eauto 10.
Qed.

Lemma add_answer_to_request_Ok (fs fs' : filesystem) now input :
  add_answer_to_request fs now input = (Ok tt, fs') →
  ∃ data data' w r' w',
    walk fs (aa_request_filepath input) = Some (File true w (Json data))
    ∧ add_answer_data now input data = Ok data'
    ∧ write_json_file fs (aa_request_filepath input) data' = (true, fs')
    ∧ walk fs' (aa_request_filepath input) = Some (File r' w' (Json data')).
Proof.
  unfold add_answer_to_request.
  destruct (load_request fs _) as [data|] eqn:Hl; [|done]. cbn [bind].
  destruct (add_answer_data now input data) as [data'|] eqn:Hd; [|done].
  destruct (write_json_file fs _ data') as [[] fs1] eqn:Hwr; [|done].
  intros [= <-]. apply load_request_Ok in Hl as (_ & w & Hw).
  destruct (write_json_file_walk _ _ _ _ Hwr) as (r' & w' & Hw').
  eauto 10.
Qed.

(** ** The [error_details] field *)

(** C7, as amended: a successful [add_answer_to_request] preserves
    "[error_details] present implies [status] is [error]", and the document
    written by a successful [update_request_status] satisfies it whenever
    the new status is [error] or the prior document has no
    [error_details]. *)
Theorem error_details_invariant (fs : filesystem) now p w (d : document) :
  walk fs p = Some (File true w (Json (JDict d))) →
  (∀ input fs',
     us_request_filepath input = p →
     update_request_status fs now input = (Ok tt, fs') →
     new_status input = error ∨ d !! "error_details" = None →
     ∃ r' w' (d' : document),
       walk fs' p = Some (File r' w' (Json (JDict d')))
       ∧ error_details_only_on_error d')
  ∧ (∀ input fs',
     aa_request_filepath input = p →
     add_answer_to_request fs now input = (Ok tt, fs') →
     error_details_only_on_error d →
     ∃ r' w' (d' : document),
       walk fs' p = Some (File r' w' (Json (JDict d')))
       ∧ error_details_only_on_error d').
Proof.
  intros Hw. split; intros input fs' <- Hok Hpre.
  - apply update_request_status_Ok in Hok
      as (data & data' & w0 & r' & w' & Hw0 & Hdata & _ & Hw').
    rewrite Hw in Hw0. simplify_eq.
    apply update_request_status_data_Ok in Hdata
      as (d0 & d' & ? & -> & _ & Hinv). simplify_eq. eauto 10.
  - apply add_answer_to_request_Ok in Hok
      as (data & data' & w0 & r' & w' & Hw0 & Hdata & _ & Hw').
    rewrite Hw in Hw0. simplify_eq.
    apply add_answer_data_Ok in Hdata as (d0 & d' & ? & -> & Hsame).
    simplify_eq. exists r', w', d'. split; [done|].
    unfold error_details_only_on_error in *. by rewrite !Hsame.
Qed.

Lemma error_details_invariant_witness :
  ∃ r' w' (d' : document),
    walk (sample_fs
            (JDict (<["response_timestamp" := JStr "2026-01-01T00:00:00+00:00"]>
                      (<["status" := JStr "answered"]> sample_document))))
         sample_path
    = Some (File r' w' (Json (JDict d')))
    ∧ error_details_only_on_error d'.
Proof.
  refine (proj1 (error_details_invariant (sample_fs (JDict sample_document))
    "2026-01-01T00:00:00+00:00" sample_path true sample_document _)
    {| us_request_filepath := sample_path; new_status := answered;
       error_message := None |} _ _ _ _).
  - reflexivity.
  - reflexivity.
  - vm_compute. reflexivity.
  - right. reflexivity.
Defined.

(** C7 as stated fails: a document in status [error] with [error_details]
    satisfies the predicate; after [update_request_status] to [answered]
    it keeps [error_details] under a status that is not [error]. *)
Lemma update_status_stale_error_details_counterexample :
  let d : document :=
    {[ "status" := JStr "error"; "error_details" := JStr "boom" ]} in
  let d' : document :=
    <["response_timestamp" := JStr "2026-01-01T00:00:00+00:00"]>
      (<["status" := JStr "answered"]> d) in
  error_details_only_on_error d
  ∧ update_request_status (sample_fs (JDict d)) "2026-01-01T00:00:00+00:00"
      {| us_request_filepath := sample_path; new_status := answered;
         error_message := None |}
    = (Ok tt, sample_fs (JDict d'))
  ∧ ¬ error_details_only_on_error d'.
Proof.
  split_and!.
  - intros _. reflexivity.
  - vm_compute. reflexivity.
  - intros H. unfold error_details_only_on_error in H.
    assert (Some (JStr "answered") = Some (JStr "error")) as Heq; [|discriminate].
    apply H. eexists. reflexivity.
Qed.

(** ** The status state machine *)





(** ** Falsy request files *)

Lemma update_request_status_data_not_read_error now input data :
  update_request_status_data now input data ≠ Raise (ToolError ReadOrParseFailed).
Proof.
  destruct data as [| | | | | |d]; try done.
  by rewrite update_request_status_data_document.
Qed.

Lemma iter_dicts_not_tool_error v e : iter_dicts v ≠ Raise (ToolError e).
Proof. by destruct v. Qed.

Lemma add_answer_data_not_read_error now input data :
  add_answer_data now input data ≠ Raise (ToolError ReadOrParseFailed).
Proof.
  unfold add_answer_data. destruct data as [| | | |s|l|d]; try done; cbn.
  - by destruct (str_contains _ _).
  - by destruct (existsb _ _).
  - case_bool_decide; [|done]. cbn.
    destruct (default JNull _) as [| | | | |l|]; try done.
    by destruct (answer_first _ _ l).
Qed.

(** C10: when the request file is readable and parses to [data], each of
    [get_request_summary], [get_request_details], [update_request_status]
    and [add_answer_to_request] raises the read-or-parse [ToolError]
    (writing nothing) if [data] is falsy, the empty object included, and
    passes that check, never raising this error, if [data] is truthy. *)
Theorem falsy_request_rejected (fs : filesystem) p w data now us aa :
  walk fs p = Some (File true w (Json data)) →
  us_request_filepath us = p → aa_request_filepath aa = p →
  truthy (JDict ∅) = false
  ∧ (truthy data = false →
       get_request_summary fs p = Raise (ToolError ReadOrParseFailed)
       ∧ get_request_details fs p = Raise (ToolError ReadOrParseFailed)
       ∧ update_request_status fs now us
         = (Raise (ToolError ReadOrParseFailed), fs)
       ∧ add_answer_to_request fs now aa
         = (Raise (ToolError ReadOrParseFailed), fs))
  ∧ (truthy data = true →
       load_request fs p = Ok data
       ∧ get_request_summary fs p ≠ Raise (ToolError ReadOrParseFailed)
       ∧ get_request_details fs p ≠ Raise (ToolError ReadOrParseFailed)
       ∧ (update_request_status fs now us).1
         ≠ Raise (ToolError ReadOrParseFailed)
       ∧ (add_answer_to_request fs now aa).1
         ≠ Raise (ToolError ReadOrParseFailed)).
Proof.
  intros Hw <- Hp. pose proof (load_request_file _ _ _ _ Hw) as Hl.
  split; [done|].
  unfold get_request_summary, get_request_details, update_request_status,
    add_answer_to_request. rewrite Hp, Hl.
  split; intros ->; cbn [bind]; [done|].
  split_and!; [done|..].
  - destruct data as [| | | | | |d]; try done.
    cbn [py_get py_get_default bind].
    pose proof (iter_dicts_not_tool_error
                  (default (JList []) (d !! "questions")) ReadOrParseFailed).
    destruct (iter_dicts _); cbn [bind]; [discriminate|].
    intros [= ->]. by apply H.
  - by destruct data.
  - pose proof (update_request_status_data_not_read_error now us data) as H.
    destruct (update_request_status_data now us data);
      [|cbn; intros [= ->]; by apply H].
    by destruct (write_json_file _ _ _) as [[] ?].
  - pose proof (add_answer_data_not_read_error now aa data) as H.
    destruct (add_answer_data now aa data);
      [|cbn; intros [= ->]; by apply H].
    by destruct (write_json_file _ _ _) as [[] ?].
Qed.

Lemma falsy_request_rejected_witness :
  get_request_summary (sample_fs (JDict ∅)) sample_path
    = Raise (ToolError ReadOrParseFailed)
  ∧ get_request_details (sample_fs (JDict ∅)) sample_path
    = Raise (ToolError ReadOrParseFailed).
Proof.
  destruct (falsy_request_rejected (sample_fs (JDict ∅)) sample_path true
    (JDict ∅) "2026-01-01T00:00:00+00:00"
    {| us_request_filepath := sample_path; new_status := answered;
       error_message := None |}
    {| aa_request_filepath := sample_path; question_id := "q1"; answer := ∅ |})
    as (_ & Hfalsy & _); [reflexivity..|].
  destruct Hfalsy as (H1 & H2 & _); [reflexivity|]. by split.
Defined.

(** ** [get_request_details] after [write_json_file] *)

(** C5, as amended: for every non-empty document, unknown top-level keys
    included, once [write_json_file] has written it to a file that can be
    opened for reading, [get_request_details] returns that very document:
    no key is dropped. *)
Theorem fetch_after_write (fs fs' : filesystem) p (d : document) :
  write_json_file fs p (JDict d) = (true, fs') →
  d ≠ ∅ →
  (∃ w c, walk fs' p = Some (File true w c)) →
  get_request_details fs' p = Ok (JDict d).
Proof.
  intros Hwr Hd (w & c & Hr).
  destruct (write_json_file_walk _ _ _ _ Hwr) as (r' & w' & Hw).
  rewrite Hw in Hr. injection Hr as -> -> <-.
  unfold get_request_details.
  by rewrite (load_request_document _ _ _ _ Hw Hd).
Qed.

Lemma fetch_after_write_witness :
  get_request_details
    (sample_fs (JDict (<["x_producer_note" := JInt 7]> sample_document)))
    sample_path
  = Ok (JDict (<["x_producer_note" := JInt 7]> sample_document)).
Proof.
  apply (fetch_after_write (project ∅)).
  - vm_compute. reflexivity.
  - intros H. apply (f_equal (lookup "task_id")) in H. vm_compute in H.
    discriminate.
  - eexists _, _. reflexivity.
Defined.

(** C5 as stated fails on the empty document: it is written, and the
    fetch that follows raises the read-or-parse error. *)
Lemma fetch_after_write_empty_counterexample :
  write_json_file (project ∅) sample_path (JDict ∅)
    = (true, sample_fs (JDict ∅))
  ∧ get_request_details (sample_fs (JDict ∅)) sample_path
    = Raise (ToolError ReadOrParseFailed).
Proof. split; vm_compute; reflexivity. Qed.

(** ** [get_request_summary] *)

Lemma lookup_filter_not_none (summary : list (string * json)) k :
  NoDup summary.*1 →
  filter_not_none summary !! k
  = match (list_to_map summary : document) !! k with
    | Some v => if is_none v then None else Some v
    | None => None
    end.
Proof.
  unfold filter_not_none.
  induction summary as [|[k' v'] summary IH]; intros Hnd.
  { cbn. by rewrite lookup_empty. }
  apply NoDup_cons in Hnd as [Hk' Hnd]. specialize (IH Hnd).
  rewrite filter_cons. cbn [list_to_map foldr snd uncurry].
  destruct (decide (k' = k)) as [->|Hne].
  - rewrite lookup_insert_eq. case_decide as Hv; cbn in Hv.
    + cbn. rewrite lookup_insert_eq. by rewrite Hv.
    + apply not_false_is_true in Hv. rewrite Hv.
      apply not_elem_of_list_to_map_1. intros Hin. apply Hk'.
      apply list_elem_of_fmap in Hin as ([k1 v1] & -> & Hin).
      apply list_elem_of_filter in Hin as [_ Hin].
      apply list_elem_of_fmap. by exists (k1, v1).
  - rewrite (lookup_insert_ne _ k' k) by done. case_decide.
    + cbn. by rewrite lookup_insert_ne.
    + done.
Qed.

(** What [get_request_summary] keeps of a top-level value. *)
Lemma summary_lookup (task_id questions desired_output : json) k :
  filter_not_none
    [("task_id", task_id); ("questions", questions);
     ("desired_output", desired_output)] !! k
  = if decide (k = "task_id")
    then (if is_none task_id then None else Some task_id)
    else if decide (k = "questions")
    then (if is_none questions then None else Some questions)
    else if decide (k = "desired_output")
    then (if is_none desired_output then None else Some desired_output)
    else None.
Proof.
  rewrite lookup_filter_not_none.
  - cbn. repeat case_decide; simplify_eq;
      rewrite ?lookup_insert_eq; try done;
      rewrite ?lookup_insert_ne by done;
      rewrite ?lookup_insert_eq; try done;
      rewrite ?lookup_insert_ne by done;
      rewrite ?lookup_insert_eq; done.
  - cbn. compute_done.
Qed.

(** C3, as amended: for every readable request file holding a non-empty
    document whose [questions] value is absent or can be iterated (a list,
    or a string or object, which yield no entry), [get_request_summary]
    returns a dict with no key other than [task_id], [questions] and
    [desired_output]; [task_id] and [desired_output] appear with the
    source's value, and are omitted when the source lacks them or holds
    [null]; [questions] is always there: one dict per entry that is an
    object, in order, holding exactly the keys [question_id] and [text]
    with the entry's values ([null] for a missing one), and the empty list
    when the source has no [questions] key. *)
Theorem summary_projection (fs : filesystem) p w (d : document)
    (dicts : list document) :
  walk fs p = Some (File true w (Json (JDict d))) →
  d ≠ ∅ →
  match d !! "questions" with
  | None => dicts = []
  | Some (JList l) =>
      dicts = omap (λ v, match v with JDict q => Some q | _ => None end) l
  | Some (JStr _) | Some (JDict _) => dicts = []
  | Some _ => False
  end →
  ∃ s : document,
    get_request_summary fs p = Ok s
    ∧ (∀ k, is_Some (s !! k) →
            k = "task_id" ∨ k = "questions" ∨ k = "desired_output")
    ∧ s !! "task_id"
      = match d !! "task_id" with
        | Some v => if is_none v then None else Some v
        | None => None
        end
    ∧ s !! "questions"
      = Some (JList ((λ q : document,
                        JDict {[ "question_id" := default JNull (q !! "question_id");
                                 "text" := default JNull (q !! "text") ]})
                     <$> dicts))
    ∧ (d !! "questions" = None → s !! "questions" = Some (JList []))
    ∧ s !! "desired_output"
      = match d !! "desired_output" with
        | Some v => if is_none v then None else Some v
        | None => None
        end.
Proof.
  intros Hw Hd Hq.
  assert (iter_dicts (default (JList []) (d !! "questions")) = Ok dicts) as Hit.
  { destruct (d !! "questions") as [[]|]; cbn; by subst. }
  eexists. split.
  { unfold get_request_summary.
    rewrite (load_request_document _ _ _ _ Hw Hd).
    cbn [bind py_get py_get_default]. rewrite Hit. cbn [bind]. done. }
  split_and!.
  - intros k. rewrite summary_lookup. repeat case_decide; auto.
    by intros [].
  - rewrite summary_lookup. cbn. by destruct (d !! "task_id").
  - by rewrite summary_lookup.
  - intros Hnone. rewrite Hnone in Hq. subst. by rewrite summary_lookup.
  - rewrite summary_lookup. cbn. by destruct (d !! "desired_output").
Qed.

Lemma summary_projection_witness :
  ∃ s : document,
    get_request_summary (sample_fs (JDict answered_document)) sample_path = Ok s
    ∧ s !! "task_id" = Some (JStr "t1")
    ∧ s !! "questions"
      = Some (JList [ JDict {[ "question_id" := JStr "q1"; "text" := JStr "Why?" ]};
                      JDict {[ "question_id" := JStr "q2"; "text" := JNull ]} ])
    ∧ s !! "desired_output" = Some (JStr "markdown")
    ∧ s !! "status" = None.
Proof.
  destruct (summary_projection (sample_fs (JDict answered_document)) sample_path
    true answered_document
    [answered_question; {[ "question_id" := JStr "q2" ]}])
    as (s & H1 & H2 & H3 & H4 & H5 & H6).
  - reflexivity.
  - intros H. apply (f_equal (lookup "task_id")) in H. vm_compute in H.
    discriminate.
  - reflexivity.
  - exists s. split_and!; [exact H1|exact H3|exact H4|exact H6|].
    destruct (s !! "status") eqn:Hs; [|reflexivity].
    destruct (H2 "status") as [|[|]]; [by eexists|discriminate..].
Defined.

(** C3 as stated fails on a document without [questions]: the summary
    still has the key, bound to the empty list. *)
Lemma summary_absent_questions_counterexample :
  let d : document := {[ "task_id" := JStr "t1" ]} in
  d !! "questions" = None
  ∧ get_request_summary (sample_fs (JDict d)) sample_path
    = Ok {[ "task_id" := JStr "t1"; "questions" := JList [] ]}
  ∧ ({[ "task_id" := JStr "t1"; "questions" := JList [] ]} : document)
      !! "questions" = Some (JList []).
Proof. split_and!; vm_compute; reflexivity. Qed.

(** ** [check_for_new_requests] *)

Lemma walk_snoc (fs : filesystem) p entries name :
  walk fs p = Some (Dir entries) → walk fs (p ++ [name])%list = entries !! name.
Proof.
  revert fs. induction p as [|n p IH]; intros fs Hw.
  - cbn in Hw |- *. simplify_eq. by destruct (entries !! name) as [[]|].
  - cbn in Hw |- *. destruct (fs !! n) as [[r w c|sub]|]; [|by apply IH|done].
    by destruct p.
Qed.

Lemma mkdir_parents_walk_dir (fs fs' : filesystem) p :
  mkdir_parents fs p = Some fs' → ∃ entries, walk fs' p = Some (Dir entries).
Proof.
  revert fs fs'. induction p as [|name p IH]; intros fs fs' Hmk.
  { cbn. eauto. }
  cbn in Hmk. destruct (fs !! name) as [[r w c|sub]|]; [done| |].
  - destruct (mkdir_parents sub p) as [sub'|] eqn:Hsub; [|done].
    cbn in Hmk. simplify_eq. cbn. rewrite lookup_insert_eq. by eapply IH.
  - destruct (mkdir_parents ∅ p) as [sub'|] eqn:Hsub; [|done].
    cbn in Hmk. simplify_eq. cbn. rewrite lookup_insert_eq. by eapply IH.
Qed.

Lemma scan_item_no_abort (fs : filesystem) item :
  holds_non_object fs item = false →
  scan_item fs item = Ok (holds_pending fs item).
Proof.
  unfold holds_non_object, holds_pending, scan_item, scan_item_body,
    open_and_load.
  destruct (walk fs item) as [[[] w [| |data]|sub]|]; try done. cbn [bind].
  destruct data as [| | | | | |d]; intros Ht; rewrite ?Ht; try done.
  destruct (truthy (JDict d)) eqn:Hd; [done|]. cbn [bind].
  cbn in Hd. apply negb_false_iff, bool_decide_eq_true in Hd as ->.
  by rewrite lookup_empty.
Qed.

Lemma scan_loop_no_abort (fs : filesystem) items pending_requests :
  (∀ item, item ∈ items → holds_non_object fs item = false) →
  scan_loop fs items pending_requests
  = Ok (pending_requests ++ filter (λ item, holds_pending fs item = true) items)%list.
Proof.
  revert pending_requests.
  induction items as [|item items IH]; intros acc Hok.
  { cbn. by rewrite app_nil_r. }
  cbn [scan_loop]. rewrite filter_cons.
  assert (∀ i, i ∈ items → holds_non_object fs i = false) as Hok'.
  { intros i Hi. apply Hok. by right. }
  destruct (is_file fs item) eqn:Hf.
  - rewrite scan_item_no_abort by (apply Hok; left). cbn [bind].
    rewrite IH by done. destruct (holds_pending fs item); cbn.
    + by rewrite <- app_assoc.
    + done.
  - rewrite IH by done.
    assert (holds_pending fs item = false) as ->; [|done].
    unfold holds_pending, is_file in *.
    by destruct (walk fs item) as [[]|].
Qed.

(** When no request-named file of the communication directory parses to a
    truthy value that is not an object, the scan returns exactly the paths
    of the readable [*.json] files whose status is ["pending"]; files that
    cannot be opened or parsed are among those skipped. *)
Lemma scan_returns_pending (fs fs' : filesystem) project_root comm_dir :
  get_comm_dir fs project_root = (Ok comm_dir, fs') →
  (∀ name, is_json_name name = true →
           holds_non_object fs' (comm_dir ++ [name])%list = false) →
  ∃ pending_requests,
    check_for_new_requests fs project_root = (Ok pending_requests, fs')
    ∧ NoDup pending_requests
    ∧ ∀ q, q ∈ pending_requests ↔
           ∃ name w (d : document),
             q = (comm_dir ++ [name])%list ∧ is_json_name name = true
             ∧ walk fs' q = Some (File true w (Json (JDict d)))
             ∧ d !! "status" = Some (JStr "pending").
Proof.
  intros Hg Hok. unfold check_for_new_requests. rewrite Hg.
  assert (∃ entries, walk fs' comm_dir = Some (Dir entries)) as [entries Hdir].
  { unfold get_comm_dir in Hg.
    destruct (mkdir_parents fs _) as [fs1|] eqn:Hmk; [|done].
    simplify_eq. by eapply mkdir_parents_walk_dir. }
  assert (∀ item, item ∈ glob_json fs' comm_dir ↔
            ∃ name, item = (comm_dir ++ [name])%list
                    ∧ is_json_name name = true ∧ is_Some (entries !! name))
    as Hglob.
  { intros item. unfold glob_json. rewrite Hdir, list_elem_of_fmap.
    split.
    - intros (name & -> & Hin). exists name.
      apply list_elem_of_filter in Hin as [Hj Hin].
      apply list_elem_of_fmap in Hin as ([name' n] & -> & Hin).
      apply elem_of_map_to_list in Hin. cbn in *. eauto.
    - intros (name & -> & Hj & [n Hn]). exists name. split; [done|].
      apply list_elem_of_filter. split; [done|].
      apply list_elem_of_fmap. exists (name, n).
      by rewrite elem_of_map_to_list. }
  rewrite scan_loop_no_abort.
  2:{ intros item (name & -> & Hj & _)%Hglob. by apply Hok. }
  eexists. split; [done|]. cbn [app]. split.
  - apply NoDup_filter. unfold glob_json. rewrite Hdir.
    apply NoDup_fmap_2.
    + intros n1 n2 Heq. by apply app_inv_head in Heq as [= ->].
    + apply NoDup_filter, NoDup_fst_map_to_list.
  - intros q. rewrite list_elem_of_filter, Hglob. unfold holds_pending. split.
    + intros [Hp (name & -> & Hj & _)]. revert Hp.
      destruct (walk fs' (comm_dir ++ [name])%list) as [[r w c|sub]|] eqn:Hw;
        [|done..].
      destruct r; [|done]. destruct c as [| |data]; [done..|].
      destruct data as [| | | | | |d]; try done. intros Hp.
      exists name, w, d. split_and!; try done.
      destruct (d !! "status") as [[]|]; try done.
      cbn in Hp. by apply bool_decide_eq_true in Hp as ->.
    + intros (name & w & d & -> & Hj & Hw & Hst). rewrite Hw, Hst. cbn.
      split; [by apply bool_decide_eq_true|].
      exists name. split_and!; [done..|].
      rewrite (walk_snoc _ _ _ _ Hdir) in Hw. eauto.
Qed.

(** The scan skips what it cannot open or parse. *)
Example scan_skips_unreadable_and_malformed :
  (check_for_new_requests (project mixed_files) ["p"]).1
  = Ok [["p"; "agent_docs"; "multi_agent"; "t1.json"]].
Proof. vm_compute. reflexivity. Qed.

(** C2 fails on the code: one request-named file holding valid JSON that
    is a non-empty list makes the whole scan fail, although the pending
    request next to it should have been returned. *)
Theorem scan_aborts_on_non_object :
  (check_for_new_requests
     (project (<["notes.json" := File true true (Json (JList [JInt 1]))]>
                 mixed_files)) ["p"]).1
  = Raise (ToolError ScanFailed).
Proof. vm_compute. reflexivity. Qed.

(** ** The file name of an associated file *)

Lemma str_has_app c (s1 s2 : string) :
  str_has c (s1 ++ s2) = str_has c s1 || str_has c s2.
Proof.
  induction s1 as [|c1 s1 IH]; [done|].
  change (String c1 s1 ++ s2) with (String c1 (s1 ++ s2)).
  cbn [str_has]. by rewrite IH, orb_assoc.
Qed.

Lemma str_has_lstrip c chars (s : string) :
  str_has c s = false → str_has c (lstrip chars s) = false.
Proof.
  induction s as [|c1 s IH]; [done|]. cbn [lstrip]. case_bool_decide; [|done].
  cbn. intros [_ Hs]%orb_false_iff. by apply IH.
Qed.

Lemma lstrip_head chars (s : string) c rest :
  lstrip chars s = String c rest → c ∉ chars.
Proof.
  induction s as [|c1 s IH]; [done|]. cbn. case_bool_decide; [done|].
  by intros [= -> _].
Qed.

Section SanitizerProperties.

Variable isalnum : ascii → bool.

(** What the proofs need of [str.isalnum]: the two path separators and
    the dot are not alphanumeric. *)
Hypothesis isalnum_slash : isalnum "/" = false.
Hypothesis isalnum_backslash : isalnum "\" = false.
Hypothesis isalnum_dot : isalnum "." = false.

Lemma safe_char_neq allowed c c' :
  isalnum c = false → c ∉ allowed → c ≠ "_"%char →
  safe_char isalnum allowed c' ≠ c.
Proof.
  intros Hc Hallowed Hu. unfold safe_char.
  destruct (isalnum c') eqn:Hc'; cbn; [congruence|].
  case_bool_decide; congruence.
Qed.

Lemma str_has_safe allowed c (s : string) :
  isalnum c = false → c ∉ allowed → c ≠ "_"%char →
  str_has c (str_map (safe_char isalnum allowed) s) = false.
Proof.
  intros Hc Hallowed Hu. induction s as [|c' s IH]; [done|].
  cbn. rewrite IH, orb_false_r. apply bool_decide_eq_false.
  by apply safe_char_neq.
Qed.

Lemma safe_task_id_has c task_id :
  isalnum c = false → c ∉ ["-"; "_"]%char → c ≠ "_"%char →
  str_has c (safe_task_id isalnum task_id) = false.
Proof. apply str_has_safe. Qed.

Lemma safe_suffix_has c filename_suffix :
  isalnum c = false → c ∉ ["-"; "_"; "."]%char → c ≠ "_"%char →
  str_has c "_file" = false →
  str_has c (safe_suffix isalnum filename_suffix) = false.
Proof.
  intros Hc Hallowed Hu Hfile. unfold safe_suffix. case_bool_decide; [done|].
  by apply str_has_lstrip, str_has_safe.
Qed.

Lemma safe_suffix_head filename_suffix c rest :
  safe_suffix isalnum filename_suffix = String c rest →
  c ∉ ["."; "/"; "\"]%char.
Proof.
  unfold safe_suffix. case_bool_decide.
  - intros [= <- _]. compute_done.
  - apply lstrip_head.
Qed.

Lemma safe_suffix_nonempty filename_suffix :
  safe_suffix isalnum filename_suffix ≠ "".
Proof. unfold safe_suffix. by case_bool_decide. Qed.

(** C6: for every task id and suffix, the file name built by
    [create_associated_file] contains neither a slash nor a backslash,
    does not start with a dot (nor does its suffix part start with a dot,
    a slash or a backslash), is not empty, has the suffix part ["_file"]
    when the stripped suffix is empty, and is a function of the two
    inputs. *)
Theorem associated_filename_safe task_id filename_suffix :
  let filename := associated_filename isalnum task_id filename_suffix in
  str_has "/" filename = false
  ∧ str_has "\" filename = false
  ∧ (∀ rest, filename ≠ String "." rest)
  ∧ (∀ c rest, safe_suffix isalnum filename_suffix = String c rest →
               c ∉ ["."; "/"; "\"]%char)
  ∧ filename ≠ ""
  ∧ (lstrip ["."; "/"; "\"]%char
       (str_map (safe_char isalnum ["-"; "_"; "."]%char) filename_suffix) = "" →
     filename = safe_task_id isalnum task_id ++ "_file")
  ∧ (∀ task_id' filename_suffix',
       task_id' = task_id → filename_suffix' = filename_suffix →
       associated_filename isalnum task_id' filename_suffix' = filename).
Proof.
  cbv zeta. unfold associated_filename. split_and!.
  - rewrite str_has_app, safe_task_id_has, safe_suffix_has; try done;
      compute_done.
  - rewrite str_has_app, safe_task_id_has, safe_suffix_has; try done;
      compute_done.
  - intros rest. destruct task_id as [|c task_id]; cbn.
    + intros H. apply safe_suffix_head in H. apply H. compute_done.
    + intros [= H _]. revert H. apply safe_char_neq; [done|compute_done|done].
  - intros c rest. apply safe_suffix_head.
  - destruct (safe_task_id isalnum task_id); [|done]. cbn.
    apply safe_suffix_nonempty.
  - intros H. unfold safe_suffix. by rewrite H.
  - by intros ?? -> ->.
Qed.

End SanitizerProperties.

Lemma associated_filename_safe_witness :
  str_has "/" (associated_filename ascii_isalnum "task/../1" "../../x.md") = false.
Proof.
  exact (proj1 (associated_filename_safe ascii_isalnum eq_refl eq_refl eq_refl
                  "task/../1" "../../x.md")).
Defined.

(** The name built for the inputs ["task/../1"] and ["../../x.md"]. *)
Example associated_filename_sample :
  associated_filename ascii_isalnum "task/../1" "../../x.md" = "task____1_.._x.md".
Proof. reflexivity. Qed.

(** ** A run of the protocol *)

(** A pending request is found by the scan, answered, marked [answered],
    and no longer found. *)
Example protocol_scenario :
  let now := "2026-01-01T00:00:00+00:00" in
  let fs0 := sample_fs (JDict sample_document) in
  let answered_question : document :=
    <["answer" := JDict {[ "response_text" := JStr "because" ]}]> sample_question in
  let d1 : document :=
    <["response_timestamp" := JStr now]>
      (<["questions" := JList [JDict answered_question]]> sample_document) in
  let d2 : document := <["status" := JStr "answered"]> d1 in
  check_for_new_requests fs0 ["p"] = (Ok [sample_path], fs0)
  ∧ add_answer_to_request fs0 now
      {| aa_request_filepath := sample_path; question_id := "q1";
         answer := {[ "response_text" := JStr "because" ]} |}
    = (Ok tt, sample_fs (JDict d1))
  ∧ update_request_status (sample_fs (JDict d1)) now
      {| us_request_filepath := sample_path; new_status := answered;
         error_message := None |}
    = (Ok tt, sample_fs (JDict d2))
  ∧ check_for_new_requests (sample_fs (JDict d2)) ["p"]
    = (Ok [], sample_fs (JDict d2)).
Proof. split_and!; vm_compute; reflexivity. Qed.

(** * Further properties of the code *)

(** ** The communication directory *)

Lemma mkdir_parents_keeps_file (fs fs' : filesystem) p q r w c :
  mkdir_parents fs p = Some fs' →
  walk fs q = Some (File r w c) → walk fs' q = Some (File r w c).
Proof.
  revert fs fs' q. induction p as [|name p IH]; intros fs fs' q Hmk Hw.
  { cbn in Hmk. by simplify_eq. }
  cbn in Hmk. destruct q as [|n q]; [done|]. cbn in Hw.
  destruct (decide (name = n)) as [->|Hne].
  - destruct (fs !! n) as [[r' w' c'|sub]|] eqn:Hn; [done| |done].
    destruct (mkdir_parents sub p) as [sub'|] eqn:Hsub; [|done].
    cbn in Hmk. simplify_eq. cbn. rewrite lookup_insert_eq. by eapply IH.
  - assert (∃ sub', fs' = <[name := Dir sub']> fs) as [sub' ->].
    { destruct (fs !! name) as [[r' w' c'|sub]|]; [done| |];
        destruct (mkdir_parents _ p) as [sub'|]; simplify_eq; cbn in Hmk;
        simplify_eq; eauto. }
    cbn. by rewrite lookup_insert_ne.
Qed.

Lemma mkdir_parents_twice (fs fs' : filesystem) p :
  mkdir_parents fs p = Some fs' → mkdir_parents fs' p = Some fs'.
Proof.
  revert fs fs'. induction p as [|name p IH]; intros fs fs' Hmk; [done|].
  cbn in Hmk.
  assert (∃ sub sub', mkdir_parents sub p = Some sub'
                      ∧ fs' = <[name := Dir sub']> fs) as (sub & sub' & Hsub & ->).
  { destruct (fs !! name) as [[r' w' c'|sub]|]; [done| |];
      destruct (mkdir_parents _ p) as [sub'|] eqn:Hsub; cbn in Hmk;
      simplify_eq; eauto. }
  cbn. rewrite lookup_insert_eq, (IH _ _ Hsub). cbn.
  by rewrite insert_insert_eq.
Qed.

Lemma mkdir_parents_blocked (fs : filesystem) p k r w c :
  walk fs (take k p) = Some (File r w c) → mkdir_parents fs p = None.
Proof.
  revert fs k. induction p as [|name p IH]; intros fs k Hw.
  { by destruct k. }
  destruct k as [|k]; [done|]. cbn in Hw |- *.
  destruct (fs !! name) as [[r' w' c'|sub]|] eqn:Hn; [done| |done].
  by rewrite (IH _ _ Hw).
Qed.

Lemma get_comm_dir_twice (fs fs' : filesystem) project_root comm_dir :
  get_comm_dir fs project_root = (Ok comm_dir, fs') →
  get_comm_dir fs' project_root = (Ok comm_dir, fs').
Proof.
  unfold get_comm_dir.
  destruct (mkdir_parents fs _) as [fs1|] eqn:Hmk; [|done].
  intros [= <- <-]. by rewrite (mkdir_parents_twice _ _ _ Hmk).
Qed.

Lemma get_comm_dir_files (fs fs' : filesystem) project_root res :
  get_comm_dir fs project_root = (res, fs') →
  ∀ q r w c, walk fs' q = Some (File r w c) ↔ walk fs q = Some (File r w c).
Proof.
  unfold get_comm_dir.
  destruct (mkdir_parents fs _) as [fs1|] eqn:Hmk; intros [= <- <-]; [|done].
  intros q r w c. split.
  - by eapply mkdir_parents_walk_file.
  - by eapply mkdir_parents_keeps_file.
Qed.

(** X1: once [get_comm_dir] has succeeded, calling it again succeeds with
    the same path and changes nothing. *)
Theorem get_comm_dir_idempotent (fs fs' : filesystem) project_root comm_dir :
  get_comm_dir fs project_root = (Ok comm_dir, fs') →
  get_comm_dir fs' project_root = (Ok comm_dir, fs').
Proof. apply get_comm_dir_twice. Qed.

Lemma get_comm_dir_idempotent_witness :
  get_comm_dir (project ∅) ["p"]
  = (Ok ["p"; "agent_docs"; "multi_agent"], project ∅).
Proof.
  apply (get_comm_dir_idempotent ∅). vm_compute. reflexivity.
Defined.

(** X2: when [get_comm_dir] succeeds, the path it returns is the project
    root followed by [agent_docs/multi_agent], it is a directory
    afterwards, and the regular files are exactly those of before, with
    the same permissions and content. *)
Theorem get_comm_dir_creates (fs fs' : filesystem) project_root comm_dir :
  get_comm_dir fs project_root = (Ok comm_dir, fs') →
  comm_dir = (project_root ++ ["agent_docs"; "multi_agent"])%list
  ∧ (∃ entries, walk fs' comm_dir = Some (Dir entries))
  ∧ (∀ q r w c, walk fs' q = Some (File r w c) ↔ walk fs q = Some (File r w c)).
Proof.
  unfold get_comm_dir.
  destruct (mkdir_parents fs _) as [fs1|] eqn:Hmk; [|done].
  intros [= <- <-]. split_and!; [done|by eapply mkdir_parents_walk_dir|].
  intros q r w c. split.
  - by eapply mkdir_parents_walk_file.
  - by eapply mkdir_parents_keeps_file.
Qed.

Lemma get_comm_dir_creates_witness :
  ∃ entries, walk (project ∅) ["p"; "agent_docs"; "multi_agent"] = Some (Dir entries).
Proof.
  exact (proj1 (proj2 (get_comm_dir_creates ∅ (project ∅) ["p"]
                         ["p"; "agent_docs"; "multi_agent"] eq_refl))).
Defined.

(** X3: when the project root, [agent_docs] or [multi_agent], or a
    directory above them, is a regular file, [get_comm_dir] fails with the
    communication-directory [ToolError] and changes nothing. *)
Theorem get_comm_dir_blocked_by_file (fs : filesystem) project_root k r w c :
  walk fs (take k (project_root ++ AGENT_COMM_DIR_NAME)%list)
    = Some (File r w c) →
  get_comm_dir fs project_root = (Raise (ToolError CommDirUnavailable), fs).
Proof.
  intros Hw. unfold get_comm_dir. by rewrite (mkdir_parents_blocked _ _ _ _ _ _ Hw).
Qed.

Lemma get_comm_dir_blocked_by_file_witness :
  let fs : filesystem := {[ "p" := Dir {[ "agent_docs" := File true true NotJson ]} ]} in
  get_comm_dir fs ["p"] = (Raise (ToolError CommDirUnavailable), fs).
Proof.
  apply (get_comm_dir_blocked_by_file _ ["p"] 2 true true NotJson). reflexivity.
Defined.

(** ** Reading and writing a JSON file *)

Lemma write_file_keeps_other (fs fs' : filesystem) p q c r w c0 :
  write_file fs p c = Some fs' → q ≠ p →
  walk fs q = Some (File r w c0) → walk fs' q = Some (File r w c0).
Proof.
  revert fs fs' q. induction p as [|name p IH]; intros fs fs' q Hwr Hne Hw; [done|].
  destruct q as [|n q]; [done|].
  destruct p as [|name' p].
  - cbn in Hwr.
    assert (∃ f, fs' = <[name := f]> fs ∧ name :: [] ≠ n :: q ∧
                 (fs !! name = None ∨ ∃ r1 w1 c1, fs !! name = Some (File r1 w1 c1)))
      as (f & -> & _ & Hold).
    { destruct (fs !! name) as [[r1 w1 c1|sub]|]; [destruct w1| |];
        simplify_eq; eauto 10. }
    cbn in Hw |- *. destruct (decide (name = n)) as [->|Hnn].
    + destruct Hold as [Hold|(r1 & w1 & c1 & Hold)]; rewrite Hold in Hw; [done|].
      destruct q; [congruence|done].
    + by rewrite lookup_insert_ne.
  - rewrite write_file_cons in Hwr.
    destruct (fs !! name) as [[r1 w1 c1|sub]|] eqn:Hn; [done| |done].
    destruct (write_file sub (name' :: p) c) as [sub'|] eqn:Hsub; [|done].
    cbn in Hwr. simplify_eq. cbn [walk] in Hw |- *.
    destruct (decide (name = n)) as [->|Hnn].
    + rewrite lookup_insert_eq. rewrite Hn in Hw.
      eapply IH; [done| |done]. congruence.
    + by rewrite lookup_insert_ne.
Qed.

Lemma write_file_twice (fs fs1 : filesystem) p c1 c2 :
  write_file fs p c1 = Some fs1 → write_file fs1 p c2 = write_file fs p c2.
Proof.
  revert fs fs1. induction p as [|name p IH]; intros fs fs1 Hwr; [done|].
  destruct p as [|name' p].
  - cbn in Hwr |- *. destruct (fs !! name) as [[r w c0|sub]|] eqn:Hn.
    + destruct w; [|done]. simplify_eq.
      by rewrite lookup_insert_eq, insert_insert_eq.
    + done.
    + simplify_eq. by rewrite lookup_insert_eq, insert_insert_eq.
  - rewrite write_file_cons in Hwr. rewrite !write_file_cons.
    destruct (fs !! name) as [[r w c0|sub]|] eqn:Hn; [done| |done].
    destruct (write_file sub (name' :: p) c1) as [sub1|] eqn:Hsub; [|done].
    cbn in Hwr. simplify_eq. rewrite lookup_insert_eq, (IH _ _ Hsub).
    destruct (write_file sub (name' :: p) c2); cbn; [|done].
    by rewrite insert_insert_eq.
Qed.

Lemma write_file_any_contents (fs fs1 : filesystem) p c1 c2 :
  write_file fs p c1 = Some fs1 → is_Some (write_file fs p c2).
Proof.
  revert fs fs1. induction p as [|name p IH]; intros fs fs1 Hwr; [done|].
  destruct p as [|name' p].
  - cbn in Hwr |- *. destruct (fs !! name) as [[r [] c0|sub]|]; by eauto.
  - rewrite write_file_cons in Hwr. rewrite write_file_cons.
    destruct (fs !! name) as [[r w c0|sub]|] eqn:Hn; [done| |done].
    destruct (write_file sub (name' :: p) c1) as [sub1|] eqn:Hsub; [|done].
    destruct (IH _ _ Hsub) as [sub2 ->]. by eexists.
Qed.

Lemma write_json_file_keeps_other (fs fs' : filesystem) p q data b r w c :
  write_json_file fs p data = (b, fs') → q ≠ p ∨ b = false →
  walk fs q = Some (File r w c) → walk fs' q = Some (File r w c).
Proof.
  unfold write_json_file. intros H Hq Hw.
  destruct (mkdir_parents fs (path_parent p)) as [fs1|] eqn:Hmk;
    [|by simplify_eq].
  pose proof (mkdir_parents_keeps_file _ _ _ _ _ _ _ Hmk Hw) as Hw1.
  destruct (write_file fs1 p (Json data)) as [fs2|] eqn:Hwr; simplify_eq; [|done].
  destruct Hq as [Hq|]; [|done]. by eapply write_file_keeps_other.
Qed.

(** X4: what [write_json_file] has written, [read_json_file] returns, for
    every JSON value, the falsy ones included, as long as the file can be
    opened for reading. *)
Theorem read_after_write (fs fs' : filesystem) p data :
  write_json_file fs p data = (true, fs') →
  (∃ w c, walk fs' p = Some (File true w c)) →
  read_json_file fs' p = Ok (Some data).
Proof.
  intros Hwr (w & c & Hr).
  destruct (write_json_file_walk _ _ _ _ Hwr) as (r' & w' & Hw).
  rewrite Hw in Hr. injection Hr as -> -> <-.
  unfold read_json_file, open_and_load. by rewrite Hw.
Qed.

Lemma read_after_write_witness :
  read_json_file (sample_fs (JDict ∅)) sample_path = Ok (Some (JDict ∅)).
Proof.
  apply (read_after_write (project ∅)).
  - vm_compute. reflexivity.
  - eexists _, _. reflexivity.
Defined.

(** X5: [write_json_file] leaves every regular file other than its target
    as it was, whether it succeeds or not, and when it fails the target
    too. *)
Theorem write_json_file_frame (fs fs' : filesystem) p data b q :
  write_json_file fs p data = (b, fs') →
  q ≠ p ∨ b = false →
  ∀ r w c, walk fs' q = Some (File r w c) ↔ walk fs q = Some (File r w c).
Proof.
  intros Hwr Hq r w c. split.
  - by eapply write_json_file_other.
  - by eapply write_json_file_keeps_other.
Qed.

Lemma write_json_file_frame_witness :
  walk (project {[ "t1.json" := File true true (Json (JDict sample_document));
                   "t2.json" := File true true (Json JNull) ]})
       ["p"; "agent_docs"; "multi_agent"; "t1.json"]
  = Some (File true true (Json (JDict sample_document)))
  ↔ walk (sample_fs (JDict sample_document))
       ["p"; "agent_docs"; "multi_agent"; "t1.json"]
  = Some (File true true (Json (JDict sample_document))).
Proof.
  apply (write_json_file_frame (sample_fs (JDict sample_document)) _
           ["p"; "agent_docs"; "multi_agent"; "t2.json"] JNull true).
  - vm_compute. reflexivity.
  - left. discriminate.
Defined.

Lemma write_json_file_twice (fs fs1 : filesystem) p data1 data2 :
  write_json_file fs p data1 = (true, fs1) →
  write_json_file fs1 p data2 = write_json_file fs p data2
  ∧ (write_json_file fs p data2).1 = true.
Proof.
  intros Hwr. pose proof Hwr as Hwr'. unfold write_json_file in Hwr' |- *.
  destruct (write_json_file_walk _ _ _ _ Hwr) as (r & w & Hw).
  rewrite (mkdir_parents_of_file _ _ _ _ _ Hw).
  destruct (mkdir_parents fs (path_parent p)) as [fs0|]; [|done].
  destruct (write_file fs0 p (Json data1)) as [fs2|] eqn:H1; [|done].
  simplify_eq. rewrite (write_file_twice _ _ _ _ (Json data2) H1).
  by destruct (write_file_any_contents _ _ _ _ (Json data2) H1) as [fs2 ->].
Qed.

(** X6: a second [write_json_file] to a path replaces what the first one
    wrote: the outcome is that of writing the second value alone. *)
Theorem write_json_file_last_wins (fs fs1 : filesystem) p data1 data2 :
  write_json_file fs p data1 = (true, fs1) →
  write_json_file fs1 p data2 = write_json_file fs p data2
  ∧ (write_json_file fs p data2).1 = true.
Proof. apply write_json_file_twice. Qed.

Lemma write_json_file_last_wins_witness :
  write_json_file (sample_fs JNull) sample_path (JDict sample_document)
  = write_json_file (project ∅) sample_path (JDict sample_document).
Proof.
  refine (proj1 (write_json_file_last_wins (project ∅) (sample_fs JNull)
                   sample_path JNull (JDict sample_document) _)).
  vm_compute. reflexivity.
Defined.

Lemma write_json_file_over_file (fs fs' : filesystem) p r w c data :
  walk fs p = Some (File r w c) →
  write_json_file fs p data = (true, fs') →
  w = true ∧ walk fs' p = Some (File r true (Json data)).
Proof.
  intros Hw Hwr. destruct w.
  - destruct (write_json_file_existing fs p r c data Hw) as (fs2 & Hwr2 & Hw2).
    rewrite Hwr in Hwr2. by simplify_eq.
  - by rewrite (write_json_file_readonly _ _ _ _ data Hw) in Hwr.
Qed.

(** ** The scan *)

Lemma holds_non_object_is_file (fs : filesystem) item :
  holds_non_object fs item = true → is_file fs item = true.
Proof.
  unfold holds_non_object, is_file. by destruct (walk fs item) as [[]|].
Qed.

Lemma scan_item_abort (fs : filesystem) item :
  holds_non_object fs item = true → scan_item fs item = Raise AttributeError.
Proof.
  unfold holds_non_object, scan_item, scan_item_body, open_and_load.
  destruct (walk fs item) as [[[] w [| |data]|sub]|]; try done. cbn [bind].
  destruct data; try done; by intros ->.
Qed.

Lemma scan_loop_abort (fs : filesystem) items pending_requests item :
  item ∈ items → holds_non_object fs item = true →
  scan_loop fs items pending_requests = Raise AttributeError.
Proof.
  revert pending_requests.
  induction items as [|item0 items IH]; intros acc Hin Hbad.
  { by apply elem_of_nil in Hin. }
  cbn [scan_loop].
  destruct (holds_non_object fs item0) eqn:H0.
  - by rewrite (holds_non_object_is_file _ _ H0), (scan_item_abort _ _ H0).
  - apply elem_of_cons in Hin as [->|Hin]; [congruence|].
    destruct (is_file fs item0); [|by apply IH].
    rewrite (scan_item_no_abort _ _ H0). cbn [bind]. by apply IH.
Qed.

Lemma glob_json_elem (fs : filesystem) dir entries item :
  walk fs dir = Some (Dir entries) →
  item ∈ glob_json fs dir
  ↔ ∃ name, item = (dir ++ [name])%list
            ∧ is_json_name name = true ∧ is_Some (entries !! name).
Proof.
  intros Hdir. unfold glob_json. rewrite Hdir, list_elem_of_fmap. split.
  - intros (name & -> & Hin). exists name.
    apply list_elem_of_filter in Hin as [Hj Hin].
    apply list_elem_of_fmap in Hin as ([name' n] & -> & Hin).
    apply elem_of_map_to_list in Hin. cbn in *. eauto.
  - intros (name & -> & Hj & [n Hn]). exists name. split; [done|].
    apply list_elem_of_filter. split; [done|].
    apply list_elem_of_fmap. exists (name, n).
    by rewrite elem_of_map_to_list.
Qed.

(** How the scan ends once the communication directory is there. *)
Lemma scan_outcome (fs fs' : filesystem) project_root comm_dir :
  get_comm_dir fs project_root = (Ok comm_dir, fs') →
  (∃ name, is_json_name name = true
           ∧ holds_non_object fs' (comm_dir ++ [name])%list = true)
  ∧ check_for_new_requests fs project_root = (Raise (ToolError ScanFailed), fs')
  ∨ (∀ name, is_json_name name = true →
             holds_non_object fs' (comm_dir ++ [name])%list = false)
  ∧ ∃ pending_requests,
      check_for_new_requests fs project_root = (Ok pending_requests, fs').
Proof.
  intros Hg.
  assert (∃ entries, walk fs' comm_dir = Some (Dir entries)) as [entries Hdir].
  { unfold get_comm_dir in Hg.
    destruct (mkdir_parents fs _) as [fs1|] eqn:Hmk; [|done].
    simplify_eq. by eapply mkdir_parents_walk_dir. }
  destruct (decide (Exists (λ item, holds_non_object fs' item = true)
                           (glob_json fs' comm_dir))) as [Hex|Hno].
  - left. apply Exists_exists in Hex as (item & Hin & Hbad).
    pose proof Hin as (name & -> & Hj & _)%(glob_json_elem _ _ _ _ Hdir).
    split; [eauto|]. unfold check_for_new_requests.
    by rewrite Hg, (scan_loop_abort _ _ _ _ Hin Hbad).
  - right.
    assert (∀ name, is_json_name name = true →
              holds_non_object fs' (comm_dir ++ [name])%list = false) as Hok.
    { intros name Hj.
      destruct (holds_non_object fs' (comm_dir ++ [name])%list) eqn:Hbad; [|done].
      destruct Hno. apply Exists_exists. eexists. split; [|done].
      apply (glob_json_elem _ _ _ _ Hdir). exists name. split_and!; [done..|].
      apply holds_non_object_is_file in Hbad. unfold is_file in Hbad.
      rewrite (walk_snoc _ _ _ _ Hdir) in Hbad.
      by destruct (entries !! name). }
    split; [done|].
    destruct (scan_returns_pending _ _ _ _ Hg Hok) as (l & Hl & _). eauto.
Qed.

(** X7: once the communication directory is there, the scan fails, with
    the scan [ToolError], whenever some [*.json] entry of the directory is
    a readable file whose JSON value is truthy and not an object, whatever
    else the directory holds. *)
Theorem scan_fails_on_non_object_entry (fs fs' : filesystem) project_root
    comm_dir name :
  get_comm_dir fs project_root = (Ok comm_dir, fs') →
  is_json_name name = true →
  holds_non_object fs' (comm_dir ++ [name])%list = true →
  check_for_new_requests fs project_root = (Raise (ToolError ScanFailed), fs').
Proof.
  intros Hg Hj Hbad.
  destruct (scan_outcome _ _ _ _ Hg) as [[_ Hres]|[Hok _]]; [done|].
  specialize (Hok name Hj). congruence.
Qed.

Lemma scan_fails_on_non_object_entry_witness :
  check_for_new_requests
    (project (<["notes.json" := File true true (Json (JList [JInt 1]))]>
                mixed_files)) ["p"]
  = (Raise (ToolError ScanFailed),
     project (<["notes.json" := File true true (Json (JList [JInt 1]))]>
                mixed_files)).
Proof.
  refine (scan_fails_on_non_object_entry
    (project (<["notes.json" := File true true (Json (JList [JInt 1]))]>
                mixed_files))
    _ ["p"] ["p"; "agent_docs"; "multi_agent"] "notes.json" _ _ _);
    vm_compute; reflexivity.
Defined.

(** X8: whenever the scan returns a list, the list has no duplicates and
    holds exactly the paths [comm_dir/name] with [name] matching [*.json]
    that are readable regular files holding an object whose [status] is
    ["pending"]. *)
Theorem scan_result_exact (fs fs' : filesystem) project_root pending_requests :
  check_for_new_requests fs project_root = (Ok pending_requests, fs') →
  NoDup pending_requests
  ∧ ∀ q, q ∈ pending_requests ↔
         ∃ name w (d : document),
           q = (project_root ++ AGENT_COMM_DIR_NAME ++ [name])%list
           ∧ is_json_name name = true
           ∧ walk fs' q = Some (File true w (Json (JDict d)))
           ∧ d !! "status" = Some (JStr "pending").
Proof.
  intros Hres.
  destruct (get_comm_dir fs project_root) as [[comm_dir|e] fs1] eqn:Hg.
  2:{ unfold check_for_new_requests in Hres. by rewrite Hg in Hres. }
  assert (comm_dir = (project_root ++ AGENT_COMM_DIR_NAME)%list) as Hdir.
  { unfold get_comm_dir in Hg. destruct (mkdir_parents fs _); by simplify_eq. }
  destruct (scan_outcome _ _ _ _ Hg) as [[_ Hfail]|[Hok _]];
    [by rewrite Hres in Hfail|].
  destruct (scan_returns_pending _ _ _ _ Hg Hok) as (l & Hl & Hnd & Hiff).
  rewrite Hres in Hl. simplify_eq. split; [done|].
  intros q. rewrite Hiff. by setoid_rewrite <- app_assoc.
Qed.

Lemma scan_result_exact_witness :
  NoDup [["p"; "agent_docs"; "multi_agent"; "t1.json"]].
Proof.
  exact (proj1 (scan_result_exact (project mixed_files) (project mixed_files)
                  ["p"] [["p"; "agent_docs"; "multi_agent"; "t1.json"]] eq_refl)).
Defined.

(** X9: the scan can be repeated: run again on the file system it left,
    it ends the same way and changes nothing. *)
Theorem scan_repeatable (fs fs' : filesystem) project_root res :
  check_for_new_requests fs project_root = (res, fs') →
  check_for_new_requests fs' project_root = (res, fs').
Proof.
  unfold check_for_new_requests.
  destruct (get_comm_dir fs project_root) as [[comm_dir|e] fs1] eqn:Hg.
  - destruct (scan_loop fs1 _ _) eqn:Hs; intros [= <- <-];
      by rewrite (get_comm_dir_twice _ _ _ _ Hg), Hs.
  - assert (fs1 = fs) as ->.
    { unfold get_comm_dir in Hg. destruct (mkdir_parents fs _); by simplify_eq. }
    intros [= <- <-]. by rewrite Hg.
Qed.

Lemma scan_repeatable_witness :
  check_for_new_requests (sample_fs (JDict sample_document)) ["p"]
  = (Ok [sample_path], sample_fs (JDict sample_document)).
Proof.
  apply (scan_repeatable (sample_fs (JDict sample_document))).
  vm_compute. reflexivity.
Defined.

(** X10: however the scan ends, the regular files are exactly those of
    before, with the same permissions and content: the scan creates
    directories at most. *)
Theorem scan_keeps_files (fs fs' : filesystem) project_root res :
  check_for_new_requests fs project_root = (res, fs') →
  ∀ q r w c, walk fs' q = Some (File r w c) ↔ walk fs q = Some (File r w c).
Proof.
  unfold check_for_new_requests.
  destruct (get_comm_dir fs project_root) as [[comm_dir|e] fs1] eqn:Hg.
  - destruct (scan_loop fs1 _ _); intros [= <- <-];
      by eapply get_comm_dir_files.
  - intros [= <- <-]. by eapply get_comm_dir_files.
Qed.

Lemma scan_keeps_files_witness :
  walk (project ∅) ["a.txt"] = Some (File true true NotJson)
  ↔ walk (∅ : filesystem) ["a.txt"] = Some (File true true NotJson).
Proof.
  apply (scan_keeps_files ∅ (project ∅) ["p"] (Ok [])).
  vm_compute. reflexivity.
Defined.

(** ** The scan and the mutating tools together *)







(** ** Request files the per-file tools cannot use *)

Lemma load_request_not_file (fs : filesystem) p :
  is_file fs p = false → load_request fs p = Raise (ToolError RequestFileNotFound).
Proof. unfold load_request. by intros ->. Qed.

Lemma load_request_unusable (fs : filesystem) p r w c :
  walk fs p = Some (File r w c) → r = false ∨ c = NotJson →
  load_request fs p = Raise (ToolError ReadOrParseFailed).
Proof.
  intros Hw Hbad. unfold load_request, is_file, read_json_file, open_and_load.
  rewrite Hw. destruct r; [|done]. by destruct Hbad as [?| ->].
Qed.

Lemma load_request_undecodable (fs : filesystem) p w :
  walk fs p = Some (File true w Undecodable) →
  load_request fs p = Raise UnicodeDecodeError.
Proof.
  intros Hw. unfold load_request, is_file, read_json_file, open_and_load.
  by rewrite Hw.
Qed.

(** What the four per-file tools do once loading the request has raised. *)
Lemma tools_on_load_error (fs : filesystem) p e now us aa :
  load_request fs p = Raise e →
  us_request_filepath us = p → aa_request_filepath aa = p →
  get_request_summary fs p = Raise e
  ∧ get_request_details fs p = Raise e
  ∧ update_request_status fs now us = (Raise e, fs)
  ∧ add_answer_to_request fs now aa = (Raise e, fs).
Proof.
  intros Hl <- Hp.
  unfold get_request_summary, get_request_details, update_request_status,
    add_answer_to_request. by rewrite Hp, Hl.
Qed.

(** X13: on a path that is not a regular file (nothing there, or a
    directory) each per-file tool raises the request-file-not-found
    [ToolError]; on a regular file that cannot be opened or does not hold
    JSON each raises the read-or-parse [ToolError]; nothing is written in
    either case. *)
Theorem unusable_request_file (fs : filesystem) p now us aa :
  us_request_filepath us = p → aa_request_filepath aa = p →
  (is_file fs p = false →
     get_request_summary fs p = Raise (ToolError RequestFileNotFound)
     ∧ get_request_details fs p = Raise (ToolError RequestFileNotFound)
     ∧ update_request_status fs now us
       = (Raise (ToolError RequestFileNotFound), fs)
     ∧ add_answer_to_request fs now aa
       = (Raise (ToolError RequestFileNotFound), fs))
  ∧ (∀ r w c, walk fs p = Some (File r w c) → r = false ∨ c = NotJson →
     get_request_summary fs p = Raise (ToolError ReadOrParseFailed)
     ∧ get_request_details fs p = Raise (ToolError ReadOrParseFailed)
     ∧ update_request_status fs now us
       = (Raise (ToolError ReadOrParseFailed), fs)
     ∧ add_answer_to_request fs now aa
       = (Raise (ToolError ReadOrParseFailed), fs)).
Proof.
  intros Hus Haa. split.
  - intros Hf. apply tools_on_load_error; [|done..].
    by apply load_request_not_file.
  - intros r w c Hw Hbad. apply tools_on_load_error; [|done..].
    by eapply load_request_unusable.
Qed.

Lemma unusable_request_file_witness :
  get_request_summary (project mixed_files)
    ["p"; "agent_docs"; "multi_agent"; "dir.json"]
  = Raise (ToolError RequestFileNotFound).
Proof.
  refine (proj1 (proj1 (unusable_request_file (project mixed_files)
    ["p"; "agent_docs"; "multi_agent"; "dir.json"] "2026-01-01T00:00:00+00:00"
    {| us_request_filepath := ["p"; "agent_docs"; "multi_agent"; "dir.json"];
       new_status := answered; error_message := None |}
    {| aa_request_filepath := ["p"; "agent_docs"; "multi_agent"; "dir.json"];
       question_id := "q1"; answer := ∅ |} eq_refl eq_refl) _)).
  vm_compute. reflexivity.
Defined.

(** X14: a readable request file whose bytes are not UTF-8 makes each
    per-file tool end with [UnicodeDecodeError], which is not a
    [ToolError] ([read_json_file] does not catch it), and nothing is
    written; the scan, which does catch it, skips such a file. *)
Theorem undecodable_request_file (fs : filesystem) p w now us aa :
  walk fs p = Some (File true w Undecodable) →
  us_request_filepath us = p → aa_request_filepath aa = p →
  get_request_summary fs p = Raise UnicodeDecodeError
  ∧ get_request_details fs p = Raise UnicodeDecodeError
  ∧ update_request_status fs now us = (Raise UnicodeDecodeError, fs)
  ∧ add_answer_to_request fs now aa = (Raise UnicodeDecodeError, fs)
  ∧ scan_item fs p = Ok false.
Proof.
  intros Hw Hus Haa.
  destruct (tools_on_load_error fs p UnicodeDecodeError now us aa)
    as (H1 & H2 & H3 & H4); [by eapply load_request_undecodable|done..|].
  split_and!; [done..|].
  unfold scan_item, scan_item_body, open_and_load. by rewrite Hw.
Qed.

Lemma undecodable_request_file_witness :
  get_request_details (project mixed_files)
    ["p"; "agent_docs"; "multi_agent"; "binary.json"]
  = Raise UnicodeDecodeError.
Proof.
  refine (proj1 (proj2 (undecodable_request_file (project mixed_files)
    ["p"; "agent_docs"; "multi_agent"; "binary.json"] true
    "2026-01-01T00:00:00+00:00"
    {| us_request_filepath := ["p"; "agent_docs"; "multi_agent"; "binary.json"];
       new_status := answered; error_message := None |}
    {| aa_request_filepath := ["p"; "agent_docs"; "multi_agent"; "binary.json"];
       question_id := "q1"; answer := ∅ |} eq_refl eq_refl eq_refl))).
Defined.

(** X15: a readable request file whose JSON value is truthy but not an
    object (a non-empty list or string, a non-zero number, [true]) makes
    [get_request_summary] and [get_request_details] end with
    [AttributeError] and [update_request_status] with [TypeError], none of
    them a [ToolError]; [add_answer_to_request] ends with [TypeError] or
    with the question-id-not-found [ToolError]; nothing is written. *)
Theorem non_object_request_file (fs : filesystem) p w data now us aa :
  walk fs p = Some (File true w (Json data)) →
  truthy data = true → (∀ d, data ≠ JDict d) →
  us_request_filepath us = p → aa_request_filepath aa = p →
  get_request_summary fs p = Raise AttributeError
  ∧ get_request_details fs p = Raise AttributeError
  ∧ update_request_status fs now us = (Raise TypeError, fs)
  ∧ (add_answer_to_request fs now aa = (Raise TypeError, fs)
     ∨ add_answer_to_request fs now aa
       = (Raise (ToolError QuestionIdNotFound), fs)).
Proof.
  intros Hw Ht Hno <- Hp. pose proof (load_request_file _ _ _ _ Hw) as Hl.
  rewrite Ht in Hl.
  unfold get_request_summary, get_request_details, update_request_status,
    add_answer_to_request. rewrite Hp, Hl. cbn [bind].
  destruct data as [| | | |s|l|d]; try done; [..|by destruct (Hno d)].
  - split_and!; [done..|]. by left.
  - split_and!; [done..|]. by left.
  - split_and!; [done..|]. by left.
  - split_and!; [done..|]. unfold add_answer_data. cbn.
    destruct (str_contains _ _); cbn; eauto.
  - split_and!; [done..|]. unfold add_answer_data. cbn.
    destruct (existsb _ _); cbn; eauto.
Qed.

Lemma non_object_request_file_witness :
  get_request_summary (sample_fs (JList [JInt 1])) sample_path
  = Raise AttributeError.
Proof.
  refine (proj1 (non_object_request_file (sample_fs (JList [JInt 1])) sample_path
    true (JList [JInt 1]) "2026-01-01T00:00:00+00:00"
    {| us_request_filepath := sample_path; new_status := answered;
       error_message := None |}
    {| aa_request_filepath := sample_path; question_id := "q1"; answer := ∅ |}
    eq_refl eq_refl _ eq_refl eq_refl)).
  intros d. discriminate.
Defined.

(** ** The summary *)

(** X16: on a readable request file holding a non-empty object,
    [get_request_summary] ends with [TypeError] exactly when the object
    has a [questions] key whose value is [null], a boolean or a number;
    otherwise it returns a summary. *)
Theorem summary_type_error_iff (fs : filesystem) p w (d : document) :
  walk fs p = Some (File true w (Json (JDict d))) → d ≠ ∅ →
  (get_request_summary fs p = Raise TypeError
   ↔ match d !! "questions" with
     | Some (JNull | JBool _ | JInt _ | JFloat _) => True
     | _ => False
     end)
  ∧ ((∃ s, get_request_summary fs p = Ok s)
     ↔ match d !! "questions" with
       | Some (JNull | JBool _ | JInt _ | JFloat _) => False
       | _ => True
       end).
Proof.
  intros Hw Hd. unfold get_request_summary.
  rewrite (load_request_document _ _ _ _ Hw Hd).
  cbn [bind py_get py_get_default].
  destruct (d !! "questions") as [[]|]; cbn; split; split; try done;
    try (by intros [? ?]); eauto.
Qed.

Lemma summary_type_error_iff_witness :
  get_request_summary (sample_fs (JDict {[ "questions" := JNull ]})) sample_path
  = Raise TypeError.
Proof.
  refine (proj2 (proj1 (summary_type_error_iff
    (sample_fs (JDict {[ "questions" := JNull ]})) sample_path true
    {[ "questions" := JNull ]} eq_refl _)) _).
  - intros H. apply (f_equal (lookup "questions")) in H. vm_compute in H.
    discriminate.
  - vm_compute. exact I.
Defined.

Lemma question_summary_answer (q ans : document) :
  question_summary (<["answer" := JDict ans]> q) = question_summary q.
Proof. unfold question_summary. by rewrite !lookup_insert_ne. Qed.

Lemma answer_first_summaries qid ans (l l' : list json) :
  answer_first qid ans l = Some l' →
  question_summary <$> omap (λ q, match q with JDict d => Some d | _ => None end) l'
  = question_summary <$> omap (λ q, match q with JDict d => Some d | _ => None end) l.
Proof.
  revert l'. induction l as [|v l IH]; intros l' Hans; [done|].
  cbn in Hans.
  assert (∀ l0, (cons v <$> answer_first qid ans l) = Some l0 →
    question_summary <$>
      omap (λ q, match q with JDict d => Some d | _ => None end) l0
    = question_summary <$>
      omap (λ q, match q with JDict d => Some d | _ => None end) (v :: l)) as Hrest.
  { intros l0 H0. destruct (answer_first qid ans l) as [l1|]; [|done].
    cbn in H0. simplify_eq. cbn. destruct v; cbn; by rewrite ?(IH l1). }
  destruct v as [| | | | | |q]; try by apply Hrest.
  destruct (py_eq_str _ qid); [|by apply Hrest].
  simplify_eq. cbn. by rewrite question_summary_answer.
Qed.

(** The shape of the document a successful [add_answer_data] returns. *)
Lemma add_answer_data_shape now input (d : document) data' :
  add_answer_data now input (JDict d) = Ok data' →
  ∃ l l', d !! "questions" = Some (JList l)
          ∧ answer_first (question_id input) (answer input) l = Some l'
          ∧ data' = JDict (<["response_timestamp" := JStr now]>
                            (<["questions" := JList l']> d)).
Proof.
  unfold add_answer_data. cbn. case_bool_decide as Hq; [|done]. cbn.
  destruct (d !! "questions") as [[| | | | |l|]|] eqn:Hl; try done. cbn.
  destruct (answer_first _ _ l) as [l'|] eqn:Hans; [|done]. cbn.
  intros [= <-]. eauto.
Qed.

Lemma insert_nonempty (d : document) k v : <[k := v]> d ≠ ∅.
Proof. apply insert_non_empty. Qed.

(** X17: a successful [add_answer_to_request] does not change what
    [get_request_summary] returns for the request: the summary shows
    neither answers nor the response timestamp. *)
Theorem summary_after_add_answer (fs fs' : filesystem) now input :
  add_answer_to_request fs now input = (Ok tt, fs') →
  get_request_summary fs' (aa_request_filepath input)
  = get_request_summary fs (aa_request_filepath input).
Proof.
  intros Hop. apply add_answer_to_request_Ok in Hop
    as (data & data' & w0 & r' & w' & Hw0 & Hdata & Hwr & _).
  destruct (write_json_file_over_file _ _ _ _ _ _ _ Hw0 Hwr) as [-> Hw'].
  destruct (add_answer_data_Ok _ _ _ _ Hdata) as (d & d0 & -> & _ & _).
  apply add_answer_data_shape in Hdata as (l & l' & Hl & Hans & ->).
  assert (d ≠ ∅) as Hd by (intros ->; by rewrite lookup_empty in Hl).
  unfold get_request_summary.
  rewrite (load_request_document _ _ _ _ Hw0 Hd).
  rewrite (load_request_document _ _ _ _ Hw' (insert_nonempty _ _ _)).
  cbn [bind py_get py_get_default].
  rewrite !(lookup_insert_ne _ "response_timestamp") by done.
  rewrite !(lookup_insert_ne _ "questions" "task_id") by done.
  rewrite !(lookup_insert_ne _ "questions" "desired_output") by done.
  rewrite lookup_insert_eq, Hl. cbn.
  by rewrite (answer_first_summaries _ _ _ _ Hans).
Qed.

Lemma summary_after_add_answer_witness :
  ∃ fs', get_request_summary fs' sample_path
         = get_request_summary (sample_fs (JDict sample_document)) sample_path.
Proof.
  eexists.
  refine (summary_after_add_answer (sample_fs (JDict sample_document)) _
    "2026-01-01T00:00:00+00:00"
    {| aa_request_filepath := sample_path; question_id := "q1";
       answer := {[ "response_text" := JStr "because" ]} |} _).
  vm_compute. reflexivity.
Defined.

(** ** The mutating tools *)

Lemma write_file_same (fs : filesystem) p r c :
  walk fs p = Some (File r true c) → write_file fs p c = Some fs.
Proof.
  revert fs. induction p as [|name p IH]; intros fs Hw; [done|].
  cbn in Hw. destruct (fs !! name) as [[r' w' c0|sub]|] eqn:Hn; [| |done].
  - destruct p; [|done]. simplify_eq. cbn. rewrite Hn. by rewrite insert_id.
  - destruct p as [|name' p]; [done|].
    rewrite write_file_cons, Hn, (IH _ Hw). cbn. by rewrite insert_id.
Qed.

Lemma update_request_status_data_twice now input (d d' : document) :
  update_request_status_data now input (JDict d) = Ok (JDict d') →
  update_request_status_data now input (JDict d') = Ok (JDict d').
Proof.
  rewrite !update_request_status_data_document. cbv zeta. intros [= <-].
  f_equal. f_equal. apply map_eq. intros k.
  destruct (new_status input), (error_message input) as [msg|];
    try case_bool_decide; rewrite !lookup_insert; repeat case_decide; done.
Qed.

(** X18: [update_request_status] is idempotent: after a successful call,
    the same call at the same time succeeds again and changes nothing. *)
Theorem update_status_idempotent (fs fs' : filesystem) now input :
  update_request_status fs now input = (Ok tt, fs') →
  update_request_status fs' now input = (Ok tt, fs').
Proof.
  intros Hop. apply update_request_status_Ok in Hop
    as (data & data' & w0 & r' & w' & Hw0 & Hdata & Hwr & _).
  destruct (write_json_file_over_file _ _ _ _ _ _ _ Hw0 Hwr) as [-> Hw'].
  destruct (update_request_status_data_Ok _ _ _ _ Hdata)
    as (d & d' & -> & -> & Hs & _).
  assert (d' ≠ ∅) as Hd' by (intros ->; by rewrite lookup_empty in Hs).
  unfold update_request_status.
  rewrite (load_request_document _ _ _ _ Hw' Hd'). cbn [bind].
  rewrite (update_request_status_data_twice _ _ _ _ Hdata).
  unfold write_json_file.
  by rewrite (mkdir_parents_of_file _ _ _ _ _ Hw'), (write_file_same _ _ _ _ Hw').
Qed.

Lemma update_status_idempotent_witness :
  ∃ fs', update_request_status fs' "2026-01-01T00:00:00+00:00"
           {| us_request_filepath := sample_path; new_status := error;
              error_message := Some "boom" |}
         = (Ok tt, fs').
Proof.
  eexists.
  refine (update_status_idempotent (sample_fs (JDict sample_document)) _ _ _ _).
  vm_compute. reflexivity.
Defined.

(** X19: [update_request_status] and [add_answer_to_request] touch no
    regular file other than the request file: however the call ends,
    every other file has the permissions and content it had. *)
Theorem mutation_touches_only_request_file (fs : filesystem) now q :
  (∀ input res fs',
     update_request_status fs now input = (res, fs') →
     q ≠ us_request_filepath input →
     ∀ r w c, walk fs' q = Some (File r w c) ↔ walk fs q = Some (File r w c))
  ∧ (∀ input res fs',
     add_answer_to_request fs now input = (res, fs') →
     q ≠ aa_request_filepath input →
     ∀ r w c, walk fs' q = Some (File r w c) ↔ walk fs q = Some (File r w c)).
Proof.
  split; intros input [[]|e] fs' Hop Hq r w c.
  - apply update_request_status_Ok in Hop as (? & data' & ? & ? & ? & _ & _ & Hwr & _).
    split.
    + eapply write_json_file_other; [done|by left].
    + eapply write_json_file_keeps_other; [done|by left].
  - by apply update_status_failure_no_write in Hop as ->.
  - apply add_answer_to_request_Ok in Hop as (? & data' & ? & ? & ? & _ & _ & Hwr & _).
    split.
    + eapply write_json_file_other; [done|by left].
    + eapply write_json_file_keeps_other; [done|by left].
  - by apply add_answer_failure_no_write in Hop as ->.
Qed.

Lemma mutation_touches_only_request_file_witness :
  ∃ fs',
    walk fs' ["p"; "agent_docs"; "multi_agent"; "t2.json"]
    = Some (File true true
              (Json (JDict (<["status" := JStr "answered"]> sample_document))))
    ↔ walk (project mixed_files) ["p"; "agent_docs"; "multi_agent"; "t2.json"]
    = Some (File true true
              (Json (JDict (<["status" := JStr "answered"]> sample_document)))).
Proof.
  eexists.
  refine (proj1 (mutation_touches_only_request_file (project mixed_files)
    "2026-01-01T00:00:00+00:00" ["p"; "agent_docs"; "multi_agent"; "t2.json"])
    {| us_request_filepath := sample_path; new_status := partial;
       error_message := None |} (Ok tt) _ _ _ _ _ _).
  - vm_compute. reflexivity.
  - discriminate.
Defined.

(** X20: [update_request_status] and [add_answer_to_request] are all or
    nothing: when the call raises, whatever it raises, the file system
    is exactly as it was. *)
Theorem mutation_failure_no_write (fs fs' : filesystem) now e :
  (∀ input, update_request_status fs now input = (Raise e, fs') → fs' = fs)
  ∧ (∀ input, add_answer_to_request fs now input = (Raise e, fs') → fs' = fs).
Proof.
  split; intros input.
  - apply update_status_failure_no_write.
  - apply add_answer_failure_no_write.
Qed.

Lemma mutation_failure_no_write_witness :
  project mixed_files = project mixed_files.
Proof.
  refine (proj2 (mutation_failure_no_write (project mixed_files) _
    "2026-01-01T00:00:00+00:00" (ToolError QuestionIdNotFound))
    {| aa_request_filepath := sample_path; question_id := "q9";
       answer := ∅ |} _).
  vm_compute. reflexivity.
Defined.

(** X21: on a readable request file that cannot be written,
    [update_request_status] and, for a question the document has,
    [add_answer_to_request] raise the write [ToolError], and the file
    keeps its content. *)
Theorem readonly_request_file (fs : filesystem) now us aa (d : document) l
    (q0 : document) :
  walk fs (us_request_filepath us) = Some (File true false (Json (JDict d))) →
  aa_request_filepath aa = us_request_filepath us →
  d !! "questions" = Some (JList l) →
  JDict q0 ∈ l → q0 !! "question_id" = Some (JStr (question_id aa)) →
  update_request_status fs now us = (Raise (ToolError WriteFailed), fs)
  ∧ add_answer_to_request fs now aa = (Raise (ToolError WriteFailed), fs).
Proof.
  intros Hw Hp Hl Hin Hq0.
  assert (d ≠ ∅) as Hd by (intros ->; by rewrite lookup_empty in Hl).
  split; [by eapply update_request_status_readonly|].
  destruct (answer_first_Some (question_id aa) (answer aa) l q0 Hin Hq0)
    as (i & q & _ & _ & _ & Hans).
  unfold add_answer_to_request. rewrite Hp.
  rewrite (load_request_document _ _ _ _ Hw Hd). cbn [bind].
  rewrite (add_answer_data_match _ _ _ _ _ Hl Hans).
  by rewrite (write_json_file_readonly _ _ _ _ _ Hw).
Qed.

Lemma readonly_request_file_witness :
  let fs := project {[ "t1.json" := File true false (Json (JDict sample_document)) ]} in
  update_request_status fs "2026-01-01T00:00:00+00:00"
    {| us_request_filepath := sample_path; new_status := answered;
       error_message := None |}
  = (Raise (ToolError WriteFailed), fs).
Proof.
  refine (proj1 (readonly_request_file _ "2026-01-01T00:00:00+00:00"
    {| us_request_filepath := sample_path; new_status := answered;
       error_message := None |}
    {| aa_request_filepath := sample_path; question_id := "q1"; answer := ∅ |}
    sample_document [JDict sample_question] sample_question _ _ _ _ _));
    [reflexivity | reflexivity | reflexivity | by left | reflexivity].
Defined.

Lemma answer_first_twice qid ans1 ans2 (l l1 : list json) :
  answer_first qid ans1 l = Some l1 →
  answer_first qid ans2 l1 = answer_first qid ans2 l
  ∧ is_Some (answer_first qid ans2 l).
Proof.
  revert l1. induction l as [|v l IH]; intros l1 Hans; [done|].
  cbn in Hans.
  assert (∀ l0, (cons v <$> answer_first qid ans1 l) = Some l0 →
            (∀ q, v = JDict q →
                  py_eq_str (default JNull (q !! "question_id")) qid = false) →
            answer_first qid ans2 l0 = answer_first qid ans2 (v :: l)
            ∧ is_Some (answer_first qid ans2 (v :: l))) as Hrest.
  { intros l0 H0 Hv. destruct (answer_first qid ans1 l) as [l2|]; [|done].
    cbn in H0. simplify_eq. destruct (IH l2 eq_refl) as [Heq [l3 Hl3]].
    cbn. destruct v as [| | | | | |q]; rewrite ?Heq, ?Hl3; try by eauto.
    rewrite (Hv q eq_refl). by eauto. }
  destruct v as [| | | | | |q]; try (apply Hrest; done).
  destruct (py_eq_str (default JNull (q !! "question_id")) qid) eqn:He.
  - simplify_eq. cbn. rewrite lookup_insert_ne by done. rewrite He.
    by rewrite insert_insert_eq.
  - apply Hrest; [done|]. by intros ? [= <-].
Qed.

(** X22: answering a question again replaces the earlier answer and
    leaves nothing else of the earlier call: after a successful
    [add_answer_to_request], a second one for the same file and question
    id ends exactly as if it had been the only one. *)
Theorem add_answer_last_wins (fs fs1 : filesystem) now1 now2 input1 input2 :
  add_answer_to_request fs now1 input1 = (Ok tt, fs1) →
  aa_request_filepath input2 = aa_request_filepath input1 →
  question_id input2 = question_id input1 →
  add_answer_to_request fs1 now2 input2 = add_answer_to_request fs now2 input2
  ∧ (add_answer_to_request fs now2 input2).1 = Ok tt.
Proof.
  intros Hop Hp Hq. apply add_answer_to_request_Ok in Hop
    as (data & data' & w0 & r' & w' & Hw0 & Hdata & Hwr & _).
  destruct (write_json_file_over_file _ _ _ _ _ _ _ Hw0 Hwr) as [-> Hw'].
  destruct (add_answer_data_Ok _ _ _ _ Hdata) as (d & d0 & -> & _ & _).
  apply add_answer_data_shape in Hdata as (l & l1 & Hl & Hans & ->).
  assert (d ≠ ∅) as Hd by (intros ->; by rewrite lookup_empty in Hl).
  rewrite <- Hq in Hans.
  destruct (answer_first_twice _ _ (answer input2) _ _ Hans) as [Heq [l2 Hl2]].
  unfold add_answer_to_request. rewrite Hp.
  rewrite (load_request_document _ _ _ _ Hw0 Hd).
  rewrite (load_request_document _ _ _ _ Hw' (insert_nonempty _ _ _)).
  cbn [bind].
  rewrite (add_answer_data_match now2 input2 d l l2 Hl Hl2).
  rewrite (add_answer_data_match now2 input2 _ l1 l2);
    [|by rewrite lookup_insert_ne, lookup_insert_eq|by rewrite Heq].
  assert (<["response_timestamp" := JStr now2]>
            (<["questions" := JList l2]>
               (<["response_timestamp" := JStr now1]>
                  (<["questions" := JList l1]> d)))
          = <["response_timestamp" := JStr now2]> (<["questions" := JList l2]> d))
    as ->.
  { apply map_eq. intros k. rewrite !lookup_insert. by repeat case_decide. }
  destruct (write_json_file_twice _ _ _ _
    (JDict (<["response_timestamp" := JStr now2]> (<["questions" := JList l2]> d)))
    Hwr) as [-> Hok].
  match goal with
  | |- context [write_json_file fs ?p ?x] =>
      destruct (write_json_file fs p x) as [[] fs2]
  end; cbn in *; [split; reflexivity|discriminate].
Qed.

Lemma add_answer_last_wins_witness :
  ∃ fs1,
    add_answer_to_request fs1 "2026-01-02T00:00:00+00:00"
      {| aa_request_filepath := sample_path; question_id := "q1";
         answer := {[ "response_text" := JStr "on reflection" ]} |}
    = add_answer_to_request (sample_fs (JDict sample_document))
        "2026-01-02T00:00:00+00:00"
        {| aa_request_filepath := sample_path; question_id := "q1";
           answer := {[ "response_text" := JStr "on reflection" ]} |}.
Proof.
  eexists.
  refine (proj1 (add_answer_last_wins (sample_fs (JDict sample_document)) _
    "2026-01-01T00:00:00+00:00" "2026-01-02T00:00:00+00:00"
    {| aa_request_filepath := sample_path; question_id := "q1";
       answer := {[ "response_text" := JStr "because" ]} |} _ _ _ _)).
  - vm_compute. reflexivity.
  - reflexivity.
  - reflexivity.
Defined.

(** ** More on the file name of an associated file *)

Lemma str_map_id (f : ascii → ascii) (s : string) :
  (∀ c, str_has c s = true → f c = c) → str_map f s = s.
Proof.
  induction s as [|c s IH]; intros Hf; [done|]. cbn. rewrite Hf, IH; [done| |].
  - intros c' Hc'. apply Hf. cbn. by rewrite Hc', orb_true_r.
  - cbn. by rewrite bool_decide_true.
Qed.

Lemma str_has_map (f : ascii → ascii) c (s : string) :
  str_has c (str_map f s) = true → ∃ c0, str_has c0 s = true ∧ c = f c0.
Proof.
  induction s as [|c1 s IH]; [done|]. cbn.
  intros [Hc|Hc]%orb_true_iff.
  - apply bool_decide_eq_true in Hc. exists c1.
    by rewrite bool_decide_true.
  - destruct (IH Hc) as (c0 & Hc0 & ->). exists c0. by rewrite Hc0, orb_true_r.
Qed.

Lemma str_has_lstrip_inv c chars (s : string) :
  str_has c (lstrip chars s) = true → str_has c s = true.
Proof.
  induction s as [|c1 s IH]; [done|]. cbn [lstrip]. case_bool_decide; [|done].
  intros Hs. cbn. by rewrite (IH Hs), orb_true_r.
Qed.

Lemma str_map_length (f : ascii → ascii) (s : string) :
  String.length (str_map f s) = String.length s.
Proof. induction s as [|c s IH]; [done|]. cbn. by rewrite IH. Qed.

Lemma lstrip_clean chars (s : string) :
  (∀ c rest, s = String c rest → c ∉ chars) → lstrip chars s = s.
Proof.
  destruct s as [|c s]; [done|]. intros Hc. cbn.
  rewrite bool_decide_false; [done|]. by eapply Hc.
Qed.

Section SanitizerWhitelist.

Variable isalnum : ascii → bool.

Lemma safe_char_whitelisted allowed c :
  "_"%char ∈ allowed →
  isalnum (safe_char isalnum allowed c) = true
  ∨ safe_char isalnum allowed c ∈ allowed.
Proof.
  intros Hu. unfold safe_char. destruct (isalnum c) eqn:Hc; cbn; [by left|].
  case_bool_decide; by right.
Qed.

Lemma safe_char_clean allowed c :
  isalnum c = true ∨ c ∈ allowed → safe_char isalnum allowed c = c.
Proof.
  intros [Hc|Hc]; unfold safe_char.
  - by rewrite Hc.
  - by rewrite (bool_decide_true _ Hc), orb_true_r.
Qed.

Lemma safe_task_id_whitelisted task_id c :
  str_has c (safe_task_id isalnum task_id) = true →
  isalnum c = true ∨ c ∈ ["-"; "_"]%char.
Proof.
  intros (c0 & _ & ->)%str_has_map. apply safe_char_whitelisted. compute_done.
Qed.

Lemma safe_task_id_clean task_id :
  (∀ c, str_has c task_id = true → isalnum c = true ∨ c ∈ ["-"; "_"]%char) →
  safe_task_id isalnum task_id = task_id.
Proof.
  intros Hclean. apply str_map_id. intros c Hc. by apply safe_char_clean, Hclean.
Qed.

Lemma safe_suffix_clean filename_suffix :
  (∀ c, str_has c filename_suffix = true →
        isalnum c = true ∨ c ∈ ["-"; "_"; "."]%char) →
  filename_suffix ≠ "" →
  (∀ c rest, filename_suffix = String c rest → c ∉ ["."; "/"; "\"]%char) →
  safe_suffix isalnum filename_suffix = filename_suffix.
Proof.
  intros Hclean Hne Hhead. unfold safe_suffix.
  rewrite str_map_id by (intros c Hc; by apply safe_char_clean, Hclean).
  rewrite (lstrip_clean _ _ Hhead). by rewrite bool_decide_false.
Qed.

(** X23: a task id made of alphanumeric characters, [-] and [_] and a
    suffix made of those and dots, not empty and not starting with a dot,
    a slash or a backslash, are used as they are: the file name is their
    concatenation. *)
Theorem clean_names_verbatim task_id filename_suffix :
  (∀ c, str_has c task_id = true → isalnum c = true ∨ c ∈ ["-"; "_"]%char) →
  (∀ c, str_has c filename_suffix = true →
        isalnum c = true ∨ c ∈ ["-"; "_"; "."]%char) →
  filename_suffix ≠ "" →
  (∀ c rest, filename_suffix = String c rest → c ∉ ["."; "/"; "\"]%char) →
  associated_filename isalnum task_id filename_suffix
  = task_id ++ filename_suffix.
Proof.
  intros Ht Hs Hne Hhead. unfold associated_filename.
  by rewrite safe_task_id_clean, safe_suffix_clean.
Qed.

(** What the results below need of [str.isalnum]: the letters of the
    default suffix are alphanumeric. *)
Hypothesis isalnum_f : isalnum "f" = true.
Hypothesis isalnum_i : isalnum "i" = true.
Hypothesis isalnum_l : isalnum "l" = true.
Hypothesis isalnum_e : isalnum "e" = true.

Lemma safe_suffix_whitelisted filename_suffix c :
  str_has c (safe_suffix isalnum filename_suffix) = true →
  isalnum c = true ∨ c ∈ ["-"; "_"; "."]%char.
Proof.
  unfold safe_suffix. case_bool_decide.
  - cbn. rewrite !orb_false_r, !orb_true_iff, !bool_decide_eq_true.
    intros [<-|[<-|[<-|[<-|<-]]]]; auto. right. compute_done.
  - intros (c0 & _ & ->)%str_has_lstrip_inv%str_has_map.
    apply safe_char_whitelisted. compute_done.
Qed.

(** X24: every character of the file name is alphanumeric, [-], [_] or
    [.], whatever the task id and the suffix contain, and the part that
    comes from the task id is as long as the task id. *)
Theorem filename_whitelist task_id filename_suffix :
  (∀ c, str_has c (associated_filename isalnum task_id filename_suffix) = true →
        isalnum c = true ∨ c ∈ ["-"; "_"; "."]%char)
  ∧ String.length (safe_task_id isalnum task_id) = String.length task_id.
Proof.
  split; [|apply str_map_length].
  intros c. unfold associated_filename. rewrite str_has_app.
  intros [Hc|Hc]%orb_true_iff.
  - apply safe_task_id_whitelisted in Hc as [?|Hc]; [by left|right].
    apply elem_of_cons in Hc as [->|Hc]; [compute_done|].
    apply list_elem_of_singleton in Hc as ->. compute_done.
  - by apply (safe_suffix_whitelisted filename_suffix).
Qed.

(** X25: sanitizing is idempotent: the file name built from an already
    sanitized task id and suffix is the file name built from the
    originals. *)
Theorem sanitize_idempotent task_id filename_suffix :
  associated_filename isalnum (safe_task_id isalnum task_id)
    (safe_suffix isalnum filename_suffix)
  = associated_filename isalnum task_id filename_suffix.
Proof.
  unfold associated_filename at 1.
  rewrite safe_task_id_clean by apply safe_task_id_whitelisted.
  rewrite safe_suffix_clean; [done|..].
  - apply safe_suffix_whitelisted.
  - apply safe_suffix_nonempty.
  - intros c rest. apply safe_suffix_head.
Qed.

End SanitizerWhitelist.

Lemma clean_names_verbatim_witness :
  associated_filename ascii_isalnum "task-1" "_response.md" = "task-1_response.md".
Proof.
  apply (clean_names_verbatim ascii_isalnum "task-1" "_response.md").
  - intros c Hc. cbn in Hc. rewrite ?orb_true_iff, ?bool_decide_eq_true in Hc.
    repeat (destruct Hc as [<-|Hc]); try discriminate;
      first [left; reflexivity | right; compute_done].
  - intros c Hc. cbn in Hc. rewrite ?orb_true_iff, ?bool_decide_eq_true in Hc.
    repeat (destruct Hc as [<-|Hc]); try discriminate;
      first [left; reflexivity | right; compute_done].
  - discriminate.
  - intros c rest [= <- _]. compute_done.
Defined.

Lemma filename_whitelist_witness :
  String.length (safe_task_id ascii_isalnum "task/../1") = 9.
Proof.
  exact (proj2 (filename_whitelist ascii_isalnum eq_refl eq_refl eq_refl eq_refl
                  "task/../1" "../../x.md")).
Defined.

Lemma sanitize_idempotent_witness :
  associated_filename ascii_isalnum "task____1" "_.._x.md"
  = associated_filename ascii_isalnum "task/../1" "../../x.md".
Proof.
  exact (sanitize_idempotent ascii_isalnum eq_refl eq_refl eq_refl eq_refl
           "task/../1" "../../x.md").
Defined.

(** ** [create_associated_file] *)

Lemma path_parent_snoc (dir : path) name : path_parent (dir ++ [name])%list = dir.
Proof. apply removelast_last. Qed.

Lemma write_file_blocked (fs : filesystem) p c :
  (∃ sub, walk fs p = Some (Dir sub))
  ∨ (∃ r c0, walk fs p = Some (File r false c0)) →
  write_file fs p c = None.
Proof.
  intros [[sub Hw]|(r & c0 & Hw)]; [|by eapply write_file_readonly].
  revert fs Hw. induction p as [|name p IH]; intros fs Hw; [done|].
  cbn in Hw. destruct (fs !! name) as [[r w c0|sub']|] eqn:Hn; [| |done].
  - by destruct p.
  - destruct p as [|name' p]; [cbn; by rewrite Hn|].
    by rewrite write_file_cons, Hn, (IH _ Hw).
Qed.

Lemma get_comm_dir_dir (fs fs1 : filesystem) project_root comm_dir :
  get_comm_dir fs project_root = (Ok comm_dir, fs1) →
  ∃ entries, walk fs1 comm_dir = Some (Dir entries).
Proof.
  unfold get_comm_dir.
  destruct (mkdir_parents fs _) as [fs2|] eqn:Hmk; [|done].
  intros [= <- <-]. by eapply mkdir_parents_walk_dir.
Qed.

Section AssociatedFileProperties.

Variable isalnum : ascii → bool.
Variable text_contents : string → contents.

(** The path [create_associated_file] writes to. *)
Lemma create_associated_file_steps (fs fs1 : filesystem) input comm_dir :
  get_comm_dir fs (cf_project_root input) = (Ok comm_dir, fs1) →
  create_associated_file isalnum text_contents fs input
  = let filepath :=
      (comm_dir ++ [associated_filename isalnum (cf_task_id input)
                      (cf_filename_suffix input)])%list in
    match write_file fs1 filepath (text_contents (cf_content input)) with
    | Some fs3 => (CreateFileOutput filepath, fs3)
    | None => (CreateFileFailed, fs1)
    end.
Proof.
  intros Hg. unfold create_associated_file. rewrite Hg. cbv zeta.
  rewrite path_parent_snoc.
  assert (mkdir_parents fs1 comm_dir = Some fs1) as ->; [|done].
  unfold get_comm_dir in Hg.
  destruct (mkdir_parents fs _) as [fs2|] eqn:Hmk; [|done].
  simplify_eq. by eapply mkdir_parents_twice.
Qed.

(** X26: when [create_associated_file] succeeds, the path it returns is
    the sanitized file name directly inside the communication directory,
    the file there holds the text given, and every other regular file is
    as it was. *)
Theorem create_file_result (fs fs' : filesystem) input filepath :
  create_associated_file isalnum text_contents fs input
    = (CreateFileOutput filepath, fs') →
  filepath
  = (cf_project_root input ++ AGENT_COMM_DIR_NAME
       ++ [associated_filename isalnum (cf_task_id input)
             (cf_filename_suffix input)])%list
  ∧ (∃ r w, walk fs' filepath
            = Some (File r w (text_contents (cf_content input))))
  ∧ (∀ q, q ≠ filepath →
       ∀ r w c, walk fs' q = Some (File r w c) ↔ walk fs q = Some (File r w c)).
Proof.
  destruct (get_comm_dir fs (cf_project_root input)) as [[comm_dir|e] fs1] eqn:Hg.
  2:{ unfold create_associated_file. by rewrite Hg. }
  rewrite (create_associated_file_steps _ _ _ _ Hg). cbv zeta.
  destruct (write_file fs1 _ _) as [fs3|] eqn:Hwr; [|done].
  intros [= <- <-]. split_and!.
  - unfold get_comm_dir in Hg. destruct (mkdir_parents fs _); simplify_eq.
    by rewrite <- app_assoc.
  - by eapply write_file_walk.
  - intros q Hq r w c. rewrite <- (get_comm_dir_files _ _ _ _ Hg q r w c). split.
    + by eapply write_file_walk_other.
    + by eapply write_file_keeps_other.
Qed.

(** X27: once the communication directory is there,
    [create_associated_file] fails with its own [ToolError], and writes
    nothing, whenever its target is a directory or a file that cannot be
    opened for writing. *)
Theorem create_file_blocked (fs fs1 : filesystem) input comm_dir :
  get_comm_dir fs (cf_project_root input) = (Ok comm_dir, fs1) →
  let filepath :=
    (comm_dir ++ [associated_filename isalnum (cf_task_id input)
                    (cf_filename_suffix input)])%list in
  (∃ sub, walk fs1 filepath = Some (Dir sub))
  ∨ (∃ r c, walk fs1 filepath = Some (File r false c)) →
  create_associated_file isalnum text_contents fs input = (CreateFileFailed, fs1).
Proof.
  intros Hg filepath Hbad.
  rewrite (create_associated_file_steps _ _ _ _ Hg). cbv zeta. fold filepath.
  by rewrite (write_file_blocked _ _ _ Hbad).
Qed.

(** X28: [create_associated_file] overwrites: after a successful call, a
    second call for the same project, task id and suffix ends exactly as
    if it had been the only one, so nothing of the first content is
    left. *)
Theorem create_file_last_wins (fs fs1 : filesystem) input1 input2 filepath :
  create_associated_file isalnum text_contents fs input1
    = (CreateFileOutput filepath, fs1) →
  cf_project_root input2 = cf_project_root input1 →
  cf_task_id input2 = cf_task_id input1 →
  cf_filename_suffix input2 = cf_filename_suffix input1 →
  create_associated_file isalnum text_contents fs1 input2
  = create_associated_file isalnum text_contents fs input2.
Proof.
  intros Hop Hroot Htask Hsuffix.
  destruct (get_comm_dir fs (cf_project_root input1)) as [[comm_dir|e] fsa] eqn:Hg.
  2:{ unfold create_associated_file in Hop. by rewrite Hg in Hop. }
  rewrite (create_associated_file_steps _ _ _ _ Hg) in Hop. cbv zeta in Hop.
  destruct (write_file fsa _ _) as [fs3|] eqn:Hwr; [|done].
  injection Hop as <- <-.
  assert (get_comm_dir fs3 (cf_project_root input2) = (Ok comm_dir, fs3)) as Hg3.
  { destruct (write_file_walk _ _ _ _ Hwr) as (r & w & Hw).
    apply mkdir_parents_of_file in Hw. rewrite path_parent_snoc in Hw.
    unfold get_comm_dir in Hg |- *. rewrite Hroot.
    destruct (mkdir_parents fs _); simplify_eq. by rewrite Hw. }
  rewrite <- Hroot in Hg.
  rewrite (create_associated_file_steps _ _ _ _ Hg),
    (create_associated_file_steps _ _ _ _ Hg3). cbv zeta.
  rewrite Htask, Hsuffix.
  rewrite (write_file_twice _ _ _ _ (text_contents (cf_content input2)) Hwr).
  by destruct (write_file_any_contents _ _ _ _
                 (text_contents (cf_content input2)) Hwr) as [fs4 ->].
Qed.

End AssociatedFileProperties.

Lemma create_file_result_witness :
  ∃ r w,
    walk (project {[ "t1_response.md" := File true true NotJson ]})
         ["p"; "agent_docs"; "multi_agent"; "t1_response.md"]
    = Some (File r w NotJson).
Proof.
  refine (proj1 (proj2 (create_file_result ascii_isalnum (λ _, NotJson) ∅ _
    {| cf_project_root := ["p"]; cf_task_id := "t1"; cf_content := "# Answer";
       cf_filename_suffix := "_response.md" |}
    ["p"; "agent_docs"; "multi_agent"; "t1_response.md"] _))).
  vm_compute. reflexivity.
Defined.

Lemma create_file_blocked_witness :
  create_associated_file ascii_isalnum (λ _, NotJson)
    (project {[ "t1_file" := Dir ∅ ]})
    {| cf_project_root := ["p"]; cf_task_id := "t1"; cf_content := "x";
       cf_filename_suffix := "" |}
  = (CreateFileFailed, project {[ "t1_file" := Dir ∅ ]}).
Proof.
  refine (create_file_blocked ascii_isalnum (λ _, NotJson)
    (project {[ "t1_file" := Dir ∅ ]}) _
    {| cf_project_root := ["p"]; cf_task_id := "t1"; cf_content := "x";
       cf_filename_suffix := "" |} ["p"; "agent_docs"; "multi_agent"] _ _).
  - vm_compute. reflexivity.
  - left. eexists. vm_compute. reflexivity.
Defined.

Lemma create_file_last_wins_witness :
  ∃ fs1,
    create_associated_file ascii_isalnum (λ _, NotJson) fs1
      {| cf_project_root := ["p"]; cf_task_id := "t1"; cf_content := "second";
         cf_filename_suffix := "_response.md" |}
    = create_associated_file ascii_isalnum (λ _, NotJson) ∅
        {| cf_project_root := ["p"]; cf_task_id := "t1"; cf_content := "second";
           cf_filename_suffix := "_response.md" |}.
Proof.
  eexists.
  refine (create_file_last_wins ascii_isalnum (λ _, NotJson) ∅ _
    {| cf_project_root := ["p"]; cf_task_id := "t1"; cf_content := "first";
       cf_filename_suffix := "_response.md" |} _
    ["p"; "agent_docs"; "multi_agent"; "t1_response.md"] _ _ _ _);
    [vm_compute; reflexivity | reflexivity..].
Defined.

(** ** The status state machine and [create_associated_file] *)



